(** * temperature_sensor: sensor bridge (src/main.py)

    A shallow embedding of the polling script: the topic template
    substitution, the two sensor classes with their discovery class methods,
    and the acquisition loop of [main].  The hardware drivers (bme680, smbus,
    w1thermsensor), the configuration parser and the MQTT publisher are the
    script's collaborators; they appear here as an environment the script
    calls into, and as events the script emits. *)

From Stdlib Require Import String Ascii List ZArith QArith Lia Bool.
From stdpp Require Import base option gmap strings.
Import ListNotations.

Local Open Scope string_scope.
Local Open Scope list_scope.

(** ** Exceptions

    The script has three handlers: [except FileNotFoundError] around the bus
    open, [except OSError] around the default BME680 construction and
    [except Exception] around the w1thermsensor import.  The exception classes
    are kept as far as those handlers and the script's own [raise] tell them
    apart.  [NotModelled] is no exception of the script: it marks a run that
    leaves the fragment of [str.format] embedded below, and every theorem
    about an exception of a read excludes it. *)

Inductive exn : Type :=
  | FileNotFoundError
  | PermissionError
  | OSError
  | KeyError (key : string)
  | ValueError
  | IndexError
  | OverflowError
  | RuntimeError
  | Exception (msg : string)
  | NotModelled.

(** [isinstance(e, FileNotFoundError)]. *)
Definition is_FileNotFoundError (e : exn) : bool :=
  match e with FileNotFoundError => true | _ => false end.

(** [isinstance(e, OSError)]: FileNotFoundError and PermissionError are
    subclasses of OSError. *)
Definition is_OSError (e : exn) : bool :=
  match e with
  | FileNotFoundError | PermissionError | OSError => true
  | _ => false
  end.

(** ** Strings *)

(** [s.split('.')[0]]: the text before the first dot (all of [s] when it has
    none). *)
Fixpoint first_label (s : string) : string :=
  match s with
  | EmptyString => EmptyString
  | String c s' => if Ascii.eqb c "." then EmptyString else String c (first_label s')
  end.

(** ** [str.format] with the keyword arguments [attribute] and [id]

    The template is scanned left to right as CPython does: text is copied,
    a doubled brace is an escaped brace, [{name}] is a replacement field.  The
    call passes only the keywords [attribute] and [id], so any other name is
    a KeyError and an empty name (auto-numbered, no positional argument) an
    IndexError.  Fields with a conversion, a format spec, an attribute or
    index access, a nested brace, a numeric name or a non-ASCII byte are
    outside the embedded fragment. *)

Inductive piece : Type :=
  | Lit (c : ascii)
  | FieldId
  | FieldAttribute.

Inductive scan_state : Type :=
  | Text                      (* copying literal text *)
  | Open                      (* just read a left brace *)
  | Close                     (* just read a right brace in text *)
  | Name (name : string).     (* inside a replacement field *)

Definition is_digit (c : ascii) : bool :=
  (48 <=? nat_of_ascii c)%nat && (nat_of_ascii c <=? 57)%nat.

Definition all_digits (s : string) : bool :=
  forallb is_digit (list_ascii_of_string s).

(** Characters of a field that select a conversion ([!]), a format spec
    ([:]), an attribute ([.]) or an index ([[]), or nest a brace. *)
Definition beyond_plain_field (c : ascii) : bool :=
  Ascii.eqb c "!" || Ascii.eqb c ":" || Ascii.eqb c "." || Ascii.eqb c "["
  || Ascii.eqb c "{" || (128 <=? nat_of_ascii c)%nat.

(** The value a finished field name stands for. *)
Definition field_of_name (name : string) : exn + piece :=
  if String.eqb name "" then inl IndexError
  else if all_digits name then inl NotModelled
  else if String.eqb name "id" then inr FieldId
  else if String.eqb name "attribute" then inr FieldAttribute
  else inl (KeyError name).

Definition cons_piece (p : piece) (r : exn + list piece) : exn + list piece :=
  match r with
  | inl e => inl e
  | inr ps => inr (p :: ps)
  end.

Fixpoint parse (st : scan_state) (s : string) : exn + list piece :=
  match s with
  | EmptyString =>
      match st with
      | Text => inr []
      | Open => inl ValueError       (* Single '{' encountered *)
      | Close => inl ValueError      (* Single '}' encountered *)
      | Name _ => inl ValueError     (* expected '}' before end of string *)
      end
  | String c s' =>
      match st with
      | Text =>
          if Ascii.eqb c "{" then parse Open s'
          else if Ascii.eqb c "}" then parse Close s'
          else cons_piece (Lit c) (parse Text s')
      | Open =>
          if Ascii.eqb c "{" then cons_piece (Lit "{") (parse Text s')
          else if Ascii.eqb c "}" then inl IndexError
          else if beyond_plain_field c then inl NotModelled
          else parse (Name (String c EmptyString)) s'
      | Close =>
          if Ascii.eqb c "}" then cons_piece (Lit "}") (parse Text s')
          else inl ValueError
      | Name name =>
          if Ascii.eqb c "}" then
            match field_of_name name with
            | inl e => inl e
            | inr p => cons_piece p (parse Text s')
            end
          else if beyond_plain_field c then inl NotModelled
          else parse (Name (name ++ String c EmptyString)) s'
      end
  end.

Fixpoint render (ps : list piece) (attribute id : string) : string :=
  match ps with
  | [] => EmptyString
  | Lit c :: ps' => String c (render ps' attribute id)
  | FieldId :: ps' => id ++ render ps' attribute id
  | FieldAttribute :: ps' => attribute ++ render ps' attribute id
  end.

(** [template.format(attribute=attribute, id=id)]. *)
Definition format (template attribute id : string) : exn + string :=
  match parse Text template with
  | inl e => inl e
  | inr ps => inr (render ps attribute id)
  end.

Definition same_field (p q : piece) : bool :=
  match p, q with
  | FieldId, FieldId => true
  | FieldAttribute, FieldAttribute => true
  | _, _ => false
  end.

(** The template lies in the embedded fragment, formats, and has a
    replacement field for the given keyword. *)
Definition has_field (p : piece) (template : string) : bool :=
  match parse Text template with
  | inl _ => false
  | inr ps => existsb (same_field p) ps
  end.

(** The template lies in the embedded fragment, formats, and has no
    replacement field for the given keyword. *)
Definition lacks_field (p : piece) (template : string) : bool :=
  match parse Text template with
  | inl _ => false
  | inr ps => negb (existsb (same_field p) ps)
  end.

(** ** Effects

    The script sleeps, prints, publishes and triggers acquisitions; a run is
    the chronological list of these calls together with either the exception
    that ended it or its result. *)

Record message : Type := Message { topic : string; payload : string }.

Inductive event : Type :=
  | GetSensorData                                   (* bme680 get_sensor_data() *)
  | Sleep (seconds : Q)                             (* time.sleep *)
  | Publish (msgs : list message) (hostname : string) (* publish.multiple *)
  | Print (text : string).

Definition M (A : Type) : Type := (list event * (exn + A))%type.

Definition ret {A} (a : A) : M A := ([], inr a).
Definition raise {A} (e : exn) : M A := ([], inl e).
Definition emit (ev : event) : M unit := ([ev], inr tt).

Definition bind {A B} (m : M A) (k : A -> M B) : M B :=
  match m with
  | (t, inl e) => (t, inl e)
  | (t, inr a) => let '(t', r) := k a in (t ++ t', r)
  end.

(** A pure call that may raise. *)
Definition lift {A} (r : exn + A) : M A := ([], r).

Declare Scope py_scope.
Delimit Scope py_scope with py.
Notation "x <- m ;; k" := (bind m (fun x => k))
  (at level 100, m at next level, right associativity) : py_scope.
Notation "m ;;; k" := (bind m (fun _ => k))
  (at level 100, right associativity) : py_scope.
Local Open Scope py_scope.

Definition trace {A} (m : M A) : list event := fst m.
Definition outcome {A} (m : M A) : exn + A := snd m.

(** ** Python builtins and driver values

    Readings are the driver's numbers; the script only ever applies [str]
    to them.  [int s base] is [int(s, base)], [None] standing for its
    ValueError.  [lower_beyond_ascii] is [str.lower] on a string that has a
    non-ASCII character.  [sleep_rejects secs] is what [time.sleep] does with
    an integer: [None] when it sleeps, else the exception it raises
    (ValueError for a negative length, OverflowError outside the platform's
    time range). *)

Class Builtins : Type := {
  value : Type;
  str : value -> string;
  int : string -> Z -> option Z;
  lower_beyond_ascii : string -> string;
  sleep_rejects : Z -> option exn
}.

Definition int_or_raise `{Builtins} (s : string) (base : Z) : exn + Z :=
  match int s base with
  | Some z => inr z
  | None => inl ValueError
  end.

Definition is_ascii (c : ascii) : bool :=
  match c with
  | Ascii _ _ _ _ _ _ _ b7 => negb b7
  end.

Definition lower_ascii (c : ascii) : ascii :=
  let n := nat_of_ascii c in
  if (65 <=? n)%nat && (n <=? 90)%nat then ascii_of_nat (n + 32) else c.

Fixpoint map_string (f : ascii -> ascii) (s : string) : string :=
  match s with
  | EmptyString => EmptyString
  | String c s' => String (f c) (map_string f s')
  end.

(** [s.lower()]: on an ASCII string the letters A to Z become a to z. *)
Definition lower `{Builtins} (s : string) : string :=
  if forallb is_ascii (list_ascii_of_string s) then map_string lower_ascii s
  else lower_beyond_ascii s.

(** ** Configuration

    [config] is a ConfigParser: sections by name, each section its options
    in file order (the order [items()] yields them) under the names the parser
    keeps, which went through [optionxform] (str.lower) when the file was
    read.  A lookup passes the option asked for through [optionxform] as
    well.  A missing section or option is a KeyError on subscription; [get]
    with a fallback returns the fallback instead. *)

Definition section : Type := list (string * string).

Fixpoint section_lookup (sec : section) (key : string) : option string :=
  match sec with
  | [] => None
  | (k, v) :: sec' => if String.eqb k key then Some v else section_lookup sec' key
  end.

(** [config[name]]. *)
Definition config_section (config : gmap string section) (name : string) : exn + section :=
  match config !! name with
  | Some sec => inr sec
  | None => inl (KeyError name)
  end.

(** [sec[key]]. *)
Definition section_getitem `{Builtins} (sec : section) (key : string) : exn + string :=
  match section_lookup sec (lower key) with
  | Some v => inr v
  | None => inl (KeyError key)
  end.

(** [sec.get(key, fallback)]. *)
Definition section_get `{Builtins} (sec : section) (key fallback : string) : string :=
  match section_lookup sec (lower key) with
  | Some v => v
  | None => fallback
  end.

(** ** BaseSensor *)

Module BaseSensor.
Section BaseSensor.
Context `{Builtins}.

(** [topic_for_attribute]: [config['mqtt']['topic_format'].format(...)]. *)
Definition topic_for_attribute (config : gmap string section)
    (mqtt_id attribute : string) : exn + string :=
  match config_section config "mqtt" with
  | inl e => inl e
  | inr mqtt =>
      match section_getitem mqtt "topic_format" with
      | inl e => inl e
      | inr topic_format => format topic_format attribute mqtt_id
      end
  end.

End BaseSensor.
End BaseSensor.

(** ** The hardware as the script sees it *)

Section Hardware.
Context `{Builtins}.

(** bme680's [FieldData], the fields the script reads. *)
Record FieldData : Type := {
  temperature : value;
  humidity : value;
  pressure : value;
  gas_resistance : value;
  heat_stable : bool
}.

(** An attached BME680 chip: the data object of a fresh driver and, for the
    n-th call of [get_sensor_data] (n from 0), the flag the call returns and
    the data object it leaves. *)
Record Chip : Type := {
  power_on : FieldData;
  acquisition : nat -> bool * FieldData
}.

(** A one-wire probe: its hardware id and what its n-th read does, return
    a temperature or raise. *)
Record W1ThermSensor : Type := {
  id : string;
  thermometer : nat -> exn + value;
  reads : nat
}.

Definition get_temperature (s : W1ThermSensor) : exn + value * W1ThermSensor :=
  match thermometer s (reads s) with
  | inl e => inl e
  | inr temp =>
      inr (temp, {| id := id s; thermometer := thermometer s; reads := S (reads s) |})
  end.

(** What the host offers at start-up. *)
Record Env : Type := {
  config : gmap string section;
  gethostname : string;
  (** [smbus.SMBus(bus_id)]: a handle or the exception of the open. *)
  SMBus : Z -> exn + nat;
  (** What constructing and configuring a bme680 driver object meets at an
      address ([None]: the driver's default) on a bus handle. *)
  chip_at : option Z -> option nat -> exn + Chip;
  (** [None] when importing w1thermsensor failed; else the probes that
      [get_available_sensors()] lists. *)
  w1 : option (list W1ThermSensor)
}.

End Hardware.

(** ** The bme680 driver object *)

Module bme680.
Section bme680.
Context `{Builtins}.

Inductive constant : Type := OS_8X | FILTER_SIZE_3 | ENABLE_GAS_MEAS.

(** The configuration calls the script makes on a fresh driver. *)
Inductive call : Type :=
  | set_humidity_oversample (c : constant)
  | set_pressure_oversample (c : constant)
  | set_temperature_oversample (c : constant)
  | set_filter (c : constant)
  | set_gas_status (c : constant)
  | set_gas_heater_temperature (v : Z)
  | set_gas_heater_duration (v : Z)
  | select_gas_heater_profile (v : Z).

Record BME680 : Type := {
  i2c_addr : option Z;          (* None: the driver's default address *)
  i2c_device : option nat;      (* the bus handle given to the constructor *)
  chip : Chip;
  calls : nat;                  (* acquisitions made so far *)
  data : FieldData;
  configured : list call
}.

(** [bme680.BME680(i2c_addr=..., i2c_device=...)]. *)
Definition new (env : Env) (addr : option Z) (device : option nat) : exn + BME680 :=
  match chip_at env addr device with
  | inl e => inl e
  | inr c =>
      inr {| i2c_addr := addr; i2c_device := device; chip := c; calls := 0;
             data := power_on c; configured := [] |}
  end.

Definition configure (c : call) (s : BME680) : BME680 :=
  {| i2c_addr := i2c_addr s; i2c_device := i2c_device s; chip := chip s;
     calls := calls s; data := data s; configured := configured s ++ [c] |}.

(** [get_sensor_data()]: one acquisition; it replaces [data] and returns
    whether new data was read. *)
Definition get_sensor_data (s : BME680) : M (bool * BME680) :=
  emit GetSensorData ;;;
  let '(fresh, d) := acquisition (chip s) (calls s) in
  ret (fresh,
       {| i2c_addr := i2c_addr s; i2c_device := i2c_device s; chip := chip s;
          calls := S (calls s); data := d; configured := configured s |}).

End bme680.
End bme680.

(** ** W1Sensor *)

Module W1Sensor.
Section W1Sensor.
Context `{Builtins}.

Record t : Type := { mqtt_id : string; _sensor : W1ThermSensor }.

Definition __init__ (mqtt_id : string) (sensor : W1ThermSensor) : t :=
  {| mqtt_id := mqtt_id; _sensor := sensor |}.

(** The generator yields one pair; the topic is computed before the probe
    is read. *)
Definition topics_and_values (config : gmap string section) (self : t)
    : M (list (string * value) * t) :=
  topic <- lift (BaseSensor.topic_for_attribute config (mqtt_id self) "temperature") ;;
  r <- lift (get_temperature (_sensor self)) ;;
  let '(temp, sensor) := r in
  ret ([(topic, temp)], {| mqtt_id := mqtt_id self; _sensor := sensor |}).

(** The [for sensor in sensors] loop of the multi-probe branch. *)
Fixpoint create_each (config : gmap string section) (hostname : string)
    (sensors : list W1ThermSensor) : M (list t) :=
  match sensors with
  | [] => ret []
  | sensor :: rest =>
      w1sensors <- lift (config_section config "w1sensors") ;;
      let mqtt_id := section_get w1sensors (id sensor) (hostname ++ "_" ++ id sensor) in
      created <- create_each config hostname rest ;;
      ret (__init__ mqtt_id sensor :: created)
  end.

Definition create_sensors (env : Env) : M (list t) :=
  match w1 env with
  | None => ret []
  | Some sensors =>
      general <- lift (config_section (config env) "general") ;;
      let hostname := section_get general "hostname" (first_label (gethostname env)) in
      if (length sensors =? 1)%nat then
        match sensors with
        | sensor :: _ =>
            w1sensors <- lift (config_section (config env) "w1sensors") ;;
            let mqtt_id := section_get w1sensors (id sensor) hostname in
            ret [__init__ mqtt_id sensor]
        | [] => ret []
        end
      else create_each (config env) hostname sensors
  end.

End W1Sensor.
End W1Sensor.

(** ** BME680Sensor *)

Module BME680Sensor.
Section BME680Sensor.
Context `{Builtins}.

Record t : Type := { mqtt_id : string; _sensor : bme680.BME680 }.

(** [if i2c_addr:] is false for [None] and for address 0. *)
Definition truthy (i2c_addr : option Z) : bool :=
  match i2c_addr with
  | Some a => negb (a =? 0)%Z
  | None => false
  end.

Definition __init__ (env : Env) (mqtt_id : string) (i2c_addr : option Z)
    (i2c_device : option nat) : exn + t :=
  match (if truthy i2c_addr then bme680.new env i2c_addr i2c_device
         else bme680.new env None i2c_device) with
  | inl e => inl e
  | inr sensor =>
      let sensor := bme680.configure (bme680.set_humidity_oversample bme680.OS_8X) sensor in
      let sensor := bme680.configure (bme680.set_pressure_oversample bme680.OS_8X) sensor in
      let sensor := bme680.configure (bme680.set_temperature_oversample bme680.OS_8X) sensor in
      let sensor := bme680.configure (bme680.set_filter bme680.FILTER_SIZE_3) sensor in
      let sensor := bme680.configure (bme680.set_gas_status bme680.ENABLE_GAS_MEAS) sensor in
      let sensor := bme680.configure (bme680.set_gas_heater_temperature 320) sensor in
      let sensor := bme680.configure (bme680.set_gas_heater_duration 150) sensor in
      let sensor := bme680.configure (bme680.select_gas_heater_profile 0) sensor in
      inr {| mqtt_id := mqtt_id; _sensor := sensor |}
  end.

(** The [for ... in range(attempts)] loop: [true] when it left by [break],
    [false] when the range ran out (the [else] clause). *)
Fixpoint stabilise (attempts : nat) (sensor : bme680.BME680) : M (bool * bme680.BME680) :=
  match attempts with
  | O => ret (false, sensor)
  | S attempts' =>
      r <- bme680.get_sensor_data sensor ;;
      let '(data, sensor) := r in
      let stable := heat_stable (bme680.data sensor) in
      if data && stable then ret (true, sensor)
      else emit (Sleep (1 # 2)) ;;; stabilise attempts' sensor
  end.

Definition topics_and_values (config : gmap string section) (self : t)
    : M (list (string * value) * t) :=
  r <- stabilise 60 (_sensor self) ;;
  let '(found, sensor) := r in
  let self := {| mqtt_id := mqtt_id self; _sensor := sensor |} in
  if found then
    t1 <- lift (BaseSensor.topic_for_attribute config (mqtt_id self) "temperature") ;;
    t2 <- lift (BaseSensor.topic_for_attribute config (mqtt_id self) "humidity") ;;
    t3 <- lift (BaseSensor.topic_for_attribute config (mqtt_id self) "pressure") ;;
    t4 <- lift (BaseSensor.topic_for_attribute config (mqtt_id self) "gas_resistance") ;;
    ret ([ (t1, temperature (bme680.data sensor));
           (t2, humidity (bme680.data sensor));
           (t3, pressure (bme680.data sensor));
           (t4, gas_resistance (bme680.data sensor)) ], self)
  else ret ([], self).

(** The [for bus_id in (0, 1)] loop. *)
Fixpoint scan_buses (env : Env) (bus_ids : list Z) (i2c_device : option nat)
    : M (option nat) :=
  match bus_ids with
  | [] => ret i2c_device
  | bus_id :: rest =>
      match SMBus env bus_id with
      | inr handle => scan_buses env rest (Some handle)
      | inl e =>
          if is_FileNotFoundError e then scan_buses env rest i2c_device
          else raise e
      end
  end.

(** The loop over [config['bme680sensors'].items()]. *)
Fixpoint create_configured (env : Env) (i2c_device : option nat)
    (items : section) (sensors : list t) : M (list t) :=
  match items with
  | [] => ret sensors
  | (i2c_addr, mqtt_id) :: rest =>
      addr <- lift (int_or_raise i2c_addr 16) ;;
      sensor <- lift (__init__ env mqtt_id (Some addr) i2c_device) ;;
      create_configured env i2c_device rest (sensors ++ [sensor])
  end.

Definition create_sensors (env : Env) : M (list t) :=
  i2c_device <- scan_buses env [0; 1]%Z None ;;
  items <- lift (config_section (config env) "bme680sensors") ;;
  sensors <- create_configured env i2c_device items [] ;;
  match sensors with
  | [] =>
      general <- lift (config_section (config env) "general") ;;
      let hostname := section_get general "hostname" (first_label (gethostname env)) in
      match __init__ env hostname None i2c_device with
      | inr sensor => ret [sensor]
      | inl e => if is_OSError e then ret [] else raise e
      end
  | _ :: _ => ret sensors
  end.

End BME680Sensor.
End BME680Sensor.

(** ** main *)

Section Main.
Context `{Builtins}.

(** The list [sensors] holds objects of both classes. *)
Inductive sensor : Type :=
  | OfBME680 (s : BME680Sensor.t)
  | OfW1 (s : W1Sensor.t).

Definition mqtt_id (s : sensor) : string :=
  match s with
  | OfBME680 b => BME680Sensor.mqtt_id b
  | OfW1 w => W1Sensor.mqtt_id w
  end.

(** [sensor.topics_and_values], dispatched on the class. *)
Definition topics_and_values (config : gmap string section) (s : sensor)
    : M (list (string * value) * sensor) :=
  match s with
  | OfBME680 b =>
      r <- BME680Sensor.topics_and_values config b ;;
      ret (fst r, OfBME680 (snd r))
  | OfW1 w =>
      r <- W1Sensor.topics_and_values config w ;;
      ret (fst r, OfW1 (snd r))
  end.

Definition to_message (tv : string * value) : message :=
  {| topic := fst tv; payload := str (snd tv) |}.

(** The [for sensor in sensors] loop of one cycle, appending to
    [messages]; it returns the batch and the sensors as the reads left
    them. *)
Fixpoint poll (config : gmap string section) (sensors : list sensor)
    (messages : list message) : M (list message * list sensor) :=
  match sensors with
  | [] => ret (messages, [])
  | s :: rest =>
      r <- topics_and_values config s ;;
      let '(tvs, s') := r in
      r' <- poll config rest (messages ++ map to_message tvs) ;;
      let '(messages', rest') := r' in
      ret (messages', s' :: rest')
  end.

(** [time.sleep(secs)] with an integer argument. *)
Definition sleep_int (secs : Z) : M unit :=
  match sleep_rejects secs with
  | Some e => raise e
  | None => emit (Sleep (inject_Z secs))
  end.

(** Lines 144 to 147: the batch is published when it is not empty. *)
Definition publish_or_print (config : gmap string section) (messages : list message)
    : M unit :=
  match messages with
  | _ :: _ =>
      mqtt <- lift (config_section config "mqtt") ;;
      broker <- lift (section_getitem mqtt "broker") ;;
      emit (Publish messages broker)
  | [] => emit (Print "No messages to publish, bit weird.")
  end.

(** Line 148: [sleep(int(config['general']['delay']))]. *)
Definition pause (config : gmap string section) : M unit :=
  general <- lift (config_section config "general") ;;
  delay <- lift (section_getitem general "delay") ;;
  secs <- lift (int_or_raise delay 10) ;;
  sleep_int secs.

(** One pass of the [while True] body. *)
Definition cycle (config : gmap string section) (sensors : list sensor)
    : M (list sensor) :=
  r <- poll config sensors [] ;;
  let '(messages, sensors) := r in
  publish_or_print config messages ;;;
  pause config ;;;
  ret sensors.

(** The first [n] passes of the loop. *)
Fixpoint polling (n : nat) (config : gmap string section) (sensors : list sensor)
    : M (list sensor) :=
  match n with
  | O => ret sensors
  | S n' =>
      sensors <- cycle config sensors ;;
      polling n' config sensors
  end.

(** Lines 132 to 137: discovery and the check that something was found. *)
Definition startup (env : Env) : M (list sensor) :=
  bme <- BME680Sensor.create_sensors env ;;
  w1 <- W1Sensor.create_sensors env ;;
  let sensors := map OfBME680 bme ++ map OfW1 w1 in
  match sensors with
  | [] => raise (Exception "No sensors found.")
  | _ :: _ => ret sensors
  end.

(** [main()], observed for [n] passes of its loop. *)
Definition main (env : Env) (n : nat) : M (list sensor) :=
  sensors <- startup env ;;
  polling n (config env) sensors.

End Main.

(** ** Observations on a template *)

(** How often a field, and how many literal characters, a parsed template
    has. *)
Definition count_piece (p : piece) (ps : list piece) : nat :=
  List.length (List.filter (same_field p) ps).

Definition count_lit (ps : list piece) : nat :=
  List.length (List.filter (fun q => match q with Lit _ => true | _ => false end) ps).

(** The string has a brace. *)
Fixpoint has_brace (s : string) : bool :=
  match s with
  | EmptyString => false
  | String c s' => Ascii.eqb c "{" || Ascii.eqb c "}" || has_brace s'
  end.

(** The string has a dot. *)
Fixpoint has_dot (s : string) : bool :=
  match s with
  | EmptyString => false
  | String c s' => Ascii.eqb c "." || has_dot s'
  end.

(** ** Observations on a run *)

(** The number of [sleep] calls in a trace, and the time they add up to. *)
Fixpoint waits (t : list event) : nat :=
  match t with
  | [] => O
  | Sleep _ :: t' => S (waits t')
  | _ :: t' => waits t'
  end.

Fixpoint waited (t : list event) : Q :=
  match t with
  | [] => 0
  | Sleep d :: t' => d + waited t'
  | _ :: t' => waited t'
  end.

Fixpoint acquisitions (t : list event) : nat :=
  match t with
  | [] => O
  | GetSensorData :: t' => S (acquisitions t')
  | _ :: t' => acquisitions t'
  end.

(** The events of the stabilisation protocol: an acquisition or a wait of
    half a time-unit. *)
Definition stabilisation_event (ev : event) : bool :=
  match ev with
  | GetSensorData => true
  | Sleep d => Qeq_bool d (1 # 2)
  | _ => false
  end.

(** The cycles a trace reports on: its publish and print calls. *)
Fixpoint reports (t : list event) : nat :=
  match t with
  | [] => O
  | Publish _ _ :: t' => S (reports t')
  | Print _ :: t' => S (reports t')
  | _ :: t' => reports t'
  end.

(** The [publish.multiple] calls of a trace, in order. *)
Fixpoint publishes (t : list event) : list (list message * string) :=
  match t with
  | [] => []
  | Publish msgs host :: t' => (msgs, host) :: publishes t'
  | _ :: t' => publishes t'
  end.

Section Attempts.
Context `{Builtins}.

(** The driver object after one more acquisition. *)
Definition acquire (s : bme680.BME680) : bme680.BME680 :=
  {| bme680.i2c_addr := bme680.i2c_addr s;
     bme680.i2c_device := bme680.i2c_device s;
     bme680.chip := bme680.chip s;
     bme680.calls := S (bme680.calls s);
     bme680.data := snd (acquisition (bme680.chip s) (bme680.calls s));
     bme680.configured := bme680.configured s |}.

Fixpoint advance (n : nat) (s : bme680.BME680) : bme680.BME680 :=
  match n with
  | O => s
  | S n' => advance n' (acquire s)
  end.

(** The data object the k-th attempt from now (k = 1, 2, ...) leaves. *)
Definition attempt_data (s : bme680.BME680) (k : nat) : FieldData :=
  snd (acquisition (bme680.chip s) (bme680.calls s + pred k)).

(** The k-th attempt from now reports data present and the heater
    stable. *)
Definition attempt_ok (s : bme680.BME680) (k : nat) : bool :=
  fst (acquisition (bme680.chip s) (bme680.calls s + pred k))
  && heat_stable (attempt_data s k).

(** The events of k failed attempts. *)
Definition failed_attempts (k : nat) : list event :=
  concat (repeat [GetSensorData; Sleep (1 # 2)] k).

(** What one turn of the loop over the configured items evaluates:
    [cls(mqtt_id, i2c_addr=int(i2c_addr, 16), i2c_device=i2c_device)]. *)
Definition construct_item (env : Env) (i2c_device : option nat)
    (item : string * string) : exn + BME680Sensor.t :=
  match int_or_raise (fst item) 16 with
  | inl e => inl e
  | inr addr => BME680Sensor.__init__ env (snd item) (Some addr) i2c_device
  end.

(** [h] is the first dot-separated component of [name]: it has no dot, and
    [name] is [h] alone or [h] followed by a dot and more. *)
Definition is_first_label (name h : string) : Prop :=
  has_dot h = false
  /\ (name = h \/ exists rest, name = h +:+ String "." rest).

(** [h] is the resolved hostname: the [hostname] option of the general
    section when there is one, else the first dot-separated component of the
    system hostname. *)
Definition is_resolved_hostname (env : Env) (general : section) (h : string) : Prop :=
  match section_lookup general "hostname" with
  | Some v => h = v
  | None => is_first_label (gethostname env) h
  end.

(** The hostname both discoveries fall back on: the [hostname] option of
    the general section, else the first label of the system hostname. *)
Definition resolved_hostname (env : Env) (general : section) : string :=
  match section_lookup general "hostname" with
  | Some h => h
  | None => first_label (gethostname env)
  end.

(** What lines 120 to 126 of [create_sensors] evaluate to when no sensor
    is configured. *)
Definition default_sensor (env : Env) (dev : option nat) : exn + list BME680Sensor.t :=
  match config_section (config env) "general" with
  | inl e => inl e
  | inr general =>
      match BME680Sensor.__init__ env (resolved_hostname env general) None dev with
      | inr s => inr [s]
      | inl e => if is_OSError e then inr [] else inl e
      end
  end.

End Attempts.

Section Batches.
Context `{Builtins}.

(** The four messages an environmental sensor contributes from the data
    object [d], in the order the script lists them. *)
Definition four_messages (config : gmap string section) (b : BME680Sensor.t)
    (d : FieldData) (chunk : list message) : Prop :=
  exists t1 t2 t3 t4,
    BaseSensor.topic_for_attribute config (BME680Sensor.mqtt_id b) "temperature" = inr t1
    /\ BaseSensor.topic_for_attribute config (BME680Sensor.mqtt_id b) "humidity" = inr t2
    /\ BaseSensor.topic_for_attribute config (BME680Sensor.mqtt_id b) "pressure" = inr t3
    /\ BaseSensor.topic_for_attribute config (BME680Sensor.mqtt_id b) "gas_resistance" = inr t4
    /\ chunk = [ {| topic := t1; payload := str (temperature d) |};
                 {| topic := t2; payload := str (humidity d) |};
                 {| topic := t3; payload := str (pressure d) |};
                 {| topic := t4; payload := str (gas_resistance d) |} ].

(** What one sensor adds to the batch of a cycle: an environmental sensor
    nothing when its 60 attempts all fail and else the four messages of its
    first successful attempt, a probe the message of the temperature it
    returns. *)
Definition contribution (config : gmap string section) (s : sensor)
    (chunk : list message) : Prop :=
  match s with
  | OfBME680 b =>
      ((forall k, 1 <= k <= 60 -> attempt_ok (BME680Sensor._sensor b) k = false)
       /\ chunk = [])
      \/ exists k, 1 <= k <= 60
           /\ attempt_ok (BME680Sensor._sensor b) k = true
           /\ (forall j, 1 <= j < k -> attempt_ok (BME680Sensor._sensor b) j = false)
           /\ four_messages config b (attempt_data (BME680Sensor._sensor b) k) chunk
  | OfW1 w =>
      exists t temp,
        BaseSensor.topic_for_attribute config (W1Sensor.mqtt_id w) "temperature" = inr t
        /\ thermometer (W1Sensor._sensor w) (reads (W1Sensor._sensor w)) = inr temp
        /\ chunk = [ {| topic := t; payload := str temp |} ]
  end.

(** The number of environmental sensors in the list. *)
Fixpoint environmental (sensors : list sensor) : nat :=
  match sensors with
  | [] => O
  | OfBME680 _ :: rest => S (environmental rest)
  | OfW1 _ :: rest => environmental rest
  end.

(** The hardware id of a probe; an environmental sensor has none. *)
Definition probe_id (s : sensor) : option string :=
  match s with
  | OfBME680 _ => None
  | OfW1 w => Some (id (W1Sensor._sensor w))
  end.

(** What identifies a sensor in the list: its class with the probe's
    hardware id, and its mqtt_id. *)
Definition label (s : sensor) : option string * string := (probe_id s, mqtt_id s).

(** A probe, and a probe sensor, after one read that returned. *)
Definition after_read (p : W1ThermSensor) : W1ThermSensor :=
  {| id := id p; thermometer := thermometer p; reads := S (reads p) |}.

Definition read_once (w : W1Sensor.t) : W1Sensor.t :=
  {| W1Sensor.mqtt_id := W1Sensor.mqtt_id w;
     W1Sensor._sensor := after_read (W1Sensor._sensor w) |}.

(** The sensors [main] polls, when discovery succeeds. *)
Definition discovered (env : Env) : list sensor :=
  match outcome (startup env) with
  | inr sensors => sensors
  | inl _ => []
  end.

End Batches.

(** ** A simulated host

    Concrete collaborators on which the script can be run: readings given
    by their decimal rendering, [int] on plain digit strings, chips that
    become stable after a given number of acquisitions. *)

(** The position of a character in a string of digits, counted from [n]. *)
Fixpoint position (c : ascii) (digits : string) (n : Z) : option Z :=
  match digits with
  | EmptyString => None
  | String d digits' => if Ascii.eqb c d then Some n else position c digits' (n + 1)%Z
  end.

Definition digit_value (c : ascii) : option Z :=
  match position c "0123456789abcdef" 0 with
  | Some d => Some d
  | None => position c "ABCDEF" 10
  end.

Fixpoint digits_value (base acc : Z) (s : string) : option Z :=
  match s with
  | EmptyString => Some acc
  | String c s' =>
      match digit_value c with
      | Some d => if (d <? base)%Z then digits_value base (acc * base + d)%Z s' else None
      | None => None
      end
  end.

Definition plain_int (s : string) (base : Z) : option Z :=
  match s with
  | EmptyString => None
  | String c s' =>
      if Ascii.eqb c "-" then
        match s' with
        | EmptyString => None
        | _ => option_map Z.opp (digits_value base 0 s')
        end
      else digits_value base 0 s
  end.

(** [time.sleep] where the nanoseconds must fit 64 bits. *)
Definition sleep_check (secs : Z) : option exn :=
  match secs with
  | Z0 => None
  | Zpos p => if (9223372036 <? p)%positive then Some OverflowError else None
  | Zneg p =>
      if (9223372036 <? p)%positive then Some OverflowError else Some ValueError
  end.

Definition simulated : Builtins :=
  {| value := string; str := fun v => v; int := plain_int;
     lower_beyond_ascii := fun s => s; sleep_rejects := sleep_check |}.

(** The data an acquisition leaves: the readings of a cold heater, or those
    of a stable one. *)
Definition reading (stable : bool) : @FieldData simulated :=
  @Build_FieldData simulated
    (if stable then "21.5" else "19.0")     (* temperature *)
    "40.1"                                  (* humidity *)
    "1013.2"                                (* pressure *)
    (if stable then "12000" else "900")     (* gas_resistance *)
    stable.

(** Unstable for the first [n] acquisitions, stable from then on. *)
Definition warming_chip (n : nat) : @Chip simulated :=
  @Build_Chip simulated (reading false) (fun i => (true, reading (n <=? i)%nat)).

(** Never stable. *)
Definition cold_chip : @Chip simulated :=
  @Build_Chip simulated (reading false) (fun i => (true, reading false)).

Definition fresh_driver (c : @Chip simulated) : @bme680.BME680 simulated :=
  @bme680.Build_BME680 simulated None (Some 3%nat) c 0%nat (power_on c) [].

(** An environmental sensor whose heater is stable at the 60th attempt, and
    one whose heater never is. *)
Definition warming_sensor : @BME680Sensor.t simulated :=
  @BME680Sensor.Build_t simulated "pi1" (fresh_driver (warming_chip 59)).

Definition cold_sensor : @BME680Sensor.t simulated :=
  @BME680Sensor.Build_t simulated "pi1" (fresh_driver cold_chip).

Definition home_config : gmap string section :=
  {[ "mqtt" := [("topic_format", "home/{id}/{attribute}"); ("broker", "broker.lan")];
     "general" := [("delay", "30")];
     "w1sensors" := [("28-bb", "attic")];
     "bme680sensors" := [] ]}.

(** A probe in a room of steady temperature. *)
Definition probe (id : string) (temp : string) : @W1ThermSensor simulated :=
  @Build_W1ThermSensor simulated id (fun _ => inr temp) 0%nat.

(** Bus 0 opens (handle 3), bus 1 does not exist. *)
Definition bus0_only (bus_id : Z) : exn + nat :=
  if (bus_id =? 0)%Z then inr 3%nat else inl FileNotFoundError.


Definition chip_present (addr : option Z) (device : option nat) : exn + @Chip simulated :=
  inr (warming_chip 2).

Definition chip_absent (addr : option Z) (device : option nat) : exn + @Chip simulated :=
  inl OSError.

Definition host (config : gmap string section) (buses : Z -> exn + nat)
    (chips : option Z -> option nat -> exn + @Chip simulated)
    (probes : option (list (@W1ThermSensor simulated))) : @Env simulated :=
  @Build_Env simulated config "pi1.lan" buses chips probes.

(** A host with a BME680 on bus 0 and two probes, one of them named in the
    configuration. *)
Definition home_env : @Env simulated :=
  host home_config bus0_only chip_present
       (Some [probe "28-aa" "21.0"; probe "28-bb" "19.0"]).

(** A host with two configured environmental sensors, the one at 0x77 never
    stabilising, and two probes, one listed in upper case. *)
Definition cellar_config : gmap string section :=
  {[ "mqtt" := [("topic_format", "home/{id}/{attribute}"); ("broker", "broker.lan")];
     "general" := [("delay", "30")];
     "w1sensors" := [("28-bb", "attic")];
     "bme680sensors" := [("76", "cellar"); ("77", "loft")] ]}.

Definition cellar_chips (addr : option Z) (device : option nat) : exn + @Chip simulated :=
  match addr with
  | Some a => if (a =? 119)%Z then inr cold_chip else inr (warming_chip 2)
  | None => inr (warming_chip 2)
  end.

Definition cellar_env : @Env simulated :=
  host cellar_config bus0_only cellar_chips
       (Some [probe "28-aa" "21.0"; probe "28-BB" "19.0"]).

(** An environmental sensor that never stabilises beside a working probe. *)
Definition mixed_sensors : list (@sensor simulated) :=
  [ @OfBME680 simulated cold_sensor;
    @OfW1 simulated (@W1Sensor.__init__ simulated "attic" (probe "28-bb" "19.0")) ].

(** The batch and the sensors a poll leaves, when every read returns. *)
Definition polled (config : gmap string section) (sensors : list (@sensor simulated))
    : list message * list (@sensor simulated) :=
  match outcome (poll config sensors []) with
  | inr r => r
  | inl _ => ([], [])
  end.


(** * Properties *)

(** ** The template scanner on examples *)

Example format_plain :
  format "home/{id}/{attribute}" "temperature" "pi1" = inr "home/pi1/temperature".
Proof. reflexivity. Qed.

Example format_escaped :
  format "{{{id}}}" "humidity" "pi1" = inr "{pi1}".
Proof. reflexivity. Qed.

Example format_unknown_key :
  format "{host}/{attribute}" "humidity" "pi1" = inl (KeyError "host").
Proof. reflexivity. Qed.

Example format_single_brace :
  format "{id}/}" "humidity" "pi1" = inl ValueError.
Proof. reflexivity. Qed.


(** ** Runs *)

Lemma bind_inr {A B} (t : list event) (a : A) (k : A -> M B) :
  bind (t, inr a) k = (t ++ fst (k a), snd (k a)).
Proof. unfold bind. destruct (k a). reflexivity. Qed.

Lemma bind_inl {A B} (t : list event) (e : exn) (k : A -> M B) :
  bind (t, inl e) k = (t, inl e).
Proof. reflexivity. Qed.

Lemma bind_lift_inr {A B} (a : A) (k : A -> M B) : bind (lift (inr a)) k = k a.
Proof. unfold lift. rewrite bind_inr. simpl. destruct (k a). reflexivity. Qed.

Lemma bind_lift_inl {A B} (e : exn) (k : A -> M B) : bind (lift (inl e)) k = ([], inl e).
Proof. reflexivity. Qed.

Lemma trace_bind {A B} (m : M A) (k : A -> M B) :
  trace (bind m k)
  = trace m ++ match outcome m with
               | inr a => trace (k a)
               | inl _ => []
               end.
Proof.
  destruct m as [t [e|a]]; unfold trace, outcome; simpl.
  - symmetry. apply app_nil_r.
  - destruct (k a). reflexivity.
Qed.

Lemma outcome_bind {A B} (m : M A) (k : A -> M B) :
  outcome (bind m k)
  = match outcome m with
    | inr a => outcome (k a)
    | inl e => inl e
    end.
Proof.
  destruct m as [t [e|a]]; unfold outcome; simpl; [reflexivity|].
  destruct (k a). reflexivity.
Qed.

Lemma outcome_bind_inr {A B} (m : M A) (k : A -> M B) (b : B) :
  outcome (bind m k) = inr b ->
  exists a, outcome m = inr a /\ outcome (k a) = inr b.
Proof.
  rewrite outcome_bind. destruct (outcome m) as [e|a]; [discriminate|].
  intros Hk. exists a. auto.
Qed.

Lemma trace_lift {A} (r : exn + A) : trace (lift r) = [].
Proof. reflexivity. Qed.

Lemma outcome_lift {A} (r : exn + A) : outcome (lift r) = r.
Proof. reflexivity. Qed.

Lemma run_eta {A} (m : M A) : m = (trace m, outcome m).
Proof. destruct m. reflexivity. Qed.

(** ** Option names

    The option names the script asks for are lower-case literals, which
    [optionxform] leaves alone. *)

Ltac literal_options :=
  repeat match goal with
  | |- context [@lower ?h "topic_format"] =>
      change (@lower h "topic_format") with "topic_format"
  | |- context [@lower ?h "broker"] => change (@lower h "broker") with "broker"
  | |- context [@lower ?h "delay"] => change (@lower h "delay") with "delay"
  | |- context [@lower ?h "hostname"] => change (@lower h "hostname") with "hostname"
  end.

Lemma lower_ascii_idempotent (c : ascii) : lower_ascii (lower_ascii c) = lower_ascii c.
Proof. destruct c as [[] [] [] [] [] [] [] []]; reflexivity. Qed.

Lemma is_ascii_lower_ascii (c : ascii) : is_ascii (lower_ascii c) = is_ascii c.
Proof. destruct c as [[] [] [] [] [] [] [] []]; reflexivity. Qed.

(** ** Host names *)

Section HostNames.
Context `{Builtins}.

Lemma first_label_is_first (name : string) : is_first_label name (first_label name).
Proof.
  unfold is_first_label. induction name as [|c name [IH1 IH2]]; [split; auto|].
  simpl. destruct (Ascii.eqb_spec c ".") as [->|Hne].
  - split; [reflexivity|]. right. exists name. reflexivity.
  - split.
    + simpl. rewrite IH1. apply orb_false_iff. split; [|reflexivity].
      now apply Ascii.eqb_neq.
    + destruct IH2 as [IH2|[rest IH2]].
      * left. now rewrite <- IH2.
      * right. exists rest.
        change (String c name = String c (first_label name +:+ String "." rest)).
        now rewrite <- IH2.
Qed.

Lemma is_first_label_unique (name h : string) :
  is_first_label name h -> first_label name = h.
Proof.
  unfold is_first_label. revert name.
  induction h as [|c h IH]; intros name [Hdot Hname].
  - destruct Hname as [->|[rest ->]]; reflexivity.
  - simpl in Hdot. apply orb_false_iff in Hdot as [Hc Hdot].
    destruct Hname as [->|[rest ->]]; simpl; rewrite Hc; f_equal; apply IH; auto.
    split; [exact Hdot|]. right. exists rest. reflexivity.
Qed.

Lemma resolved_hostname_is_resolved (env : Env) (general : section) :
  is_resolved_hostname env general (resolved_hostname env general).
Proof.
  unfold is_resolved_hostname, resolved_hostname.
  destruct (section_lookup general "hostname"); [reflexivity|].
  apply first_label_is_first.
Qed.

Lemma is_resolved_hostname_unique (env : Env) (general : section) (h : string) :
  is_resolved_hostname env general h -> resolved_hostname env general = h.
Proof.
  unfold is_resolved_hostname, resolved_hostname.
  destruct (section_lookup general "hostname"); [congruence|].
  apply is_first_label_unique.
Qed.

End HostNames.

(** ** Topic naming *)

Section TopicNaming.
Context `{Builtins}.

Lemma append_cancel_l (s a b : string) : s +:+ a = s +:+ b -> a = b.
Proof.
  induction s as [|c s IH]; simpl; intros Heq; [exact Heq|].
  injection Heq as Heq. auto.
Qed.

Lemma append_same_length (x y r r' : string) :
  String.length x = String.length y -> x +:+ r = y +:+ r' -> x = y /\ r = r'.
Proof.
  revert y. induction x as [|c x IH]; intros [|d y]; simpl; intros Hlen Heq;
    try discriminate.
  - auto.
  - injection Heq as -> Heq. injection Hlen as Hlen.
    destruct (IH y Hlen Heq) as [-> ->]. auto.
Qed.

Lemma length_append (x y : string) :
  String.length (x +:+ y) = (String.length x + String.length y)%nat.
Proof. induction x as [|c x IH]; simpl; [reflexivity|]. now rewrite IH. Qed.

Lemma length_render (ps : list piece) (attribute id : string) :
  String.length (render ps attribute id)
  = (count_lit ps + count_piece FieldAttribute ps * String.length attribute
     + count_piece FieldId ps * String.length id)%nat.
Proof.
  unfold count_lit, count_piece.
  induction ps as [|[c| |] ps IH]; simpl; rewrite ?length_append, ?IH; lia.
Qed.

Lemma count_piece_pos (p : piece) (ps : list piece) :
  In p ps -> (forall c, p <> Lit c) -> (0 < count_piece p ps)%nat.
Proof.
  intros Hin Hp. unfold count_piece.
  induction ps as [|q ps IH]; simpl in *; [contradiction|].
  destruct Hin as [->|Hin].
  - destruct p; simpl; try lia. exfalso. eapply Hp; reflexivity.
  - specialize (IH Hin). destruct p, q; simpl; lia.
Qed.

(** With components of equal lengths the two renderings are aligned piece
    by piece, so every field present must agree. *)
Lemma render_aligned (ps : list piece) (a1 a2 i1 i2 : string) :
  String.length a1 = String.length a2 ->
  String.length i1 = String.length i2 ->
  render ps a1 i1 = render ps a2 i2 ->
  (In FieldId ps -> i1 = i2) /\ (In FieldAttribute ps -> a1 = a2).
Proof.
  intros Ha Hi. induction ps as [|[c| |] ps IH]; simpl; intros Heq.
  - split; contradiction.
  - injection Heq as Heq. destruct (IH Heq) as [H1 H2].
    split; intros [Hc|Hin]; try discriminate; auto.
  - destruct (append_same_length _ _ _ _ Hi Heq) as [-> Hr].
    destruct (IH Hr) as [H1 H2].
    split; [reflexivity|]. intros [Hc|Hin]; try discriminate; auto.
  - destruct (append_same_length _ _ _ _ Ha Heq) as [-> Hr].
    destruct (IH Hr) as [H1 H2].
    split; [|reflexivity]. intros [Hc|Hin]; try discriminate; auto.
Qed.

Lemma has_field_parse (p : piece) (template : string) :
  has_field p template = true ->
  (p = FieldId \/ p = FieldAttribute) ->
  exists ps, parse Text template = inr ps /\ In p ps.
Proof.
  unfold has_field. destruct (parse Text template) as [e|ps]; [discriminate|].
  intros Hex Hp. exists ps. split; [reflexivity|].
  apply existsb_exists in Hex as (q & Hin & Hq).
  destruct Hp as [-> | ->]; destruct q; try discriminate; exact Hin.
Qed.

(** Rendering one template is injective on pairs whose ids have equal
    lengths or whose attributes have equal lengths: the renderings having one
    length, the other components have equal lengths too. *)
Lemma render_injective (ps : list piece) (a1 a2 i1 i2 : string) :
  In FieldId ps -> In FieldAttribute ps ->
  String.length i1 = String.length i2 \/ String.length a1 = String.length a2 ->
  render ps a1 i1 = render ps a2 i2 ->
  i1 = i2 /\ a1 = a2.
Proof.
  intros Hid Hattr Hside Heq.
  assert (Hlen : String.length (render ps a1 i1) = String.length (render ps a2 i2))
    by now rewrite Heq.
  rewrite !length_render in Hlen.
  assert (Hci : (0 < count_piece FieldId ps)%nat)
    by (apply count_piece_pos; auto; discriminate).
  assert (Hca : (0 < count_piece FieldAttribute ps)%nat)
    by (apply count_piece_pos; auto; discriminate).
  assert (String.length i1 = String.length i2 /\ String.length a1 = String.length a2)
    as [Hi Ha].
  { destruct Hside as [Hi | Ha]; split; try assumption; nia. }
  destruct (render_aligned ps a1 a2 i1 i2 Ha Hi Heq) as [H1 H2]. auto.
Qed.

(** C3 (as amended): for a template with both the {id} and the {attribute}
    field, topic_for_attribute yields a topic for every pair, and two
    distinct (id, attribute) pairs whose ids have equal lengths or whose
    attributes have equal lengths (pairs that share a component among them)
    get distinct topics: two distinct pairs can only collide when both
    lengths differ. *)
Theorem topic_for_attribute_injective
    (config : gmap string section) (mqtt : section) (template : string)
    (id1 id2 attribute1 attribute2 : string) :
  config !! "mqtt" = Some mqtt ->
  section_lookup mqtt "topic_format" = Some template ->
  has_field FieldId template = true ->
  has_field FieldAttribute template = true ->
  (id1, attribute1) <> (id2, attribute2) ->
  String.length id1 = String.length id2
  \/ String.length attribute1 = String.length attribute2 ->
  exists topic1 topic2,
    BaseSensor.topic_for_attribute config id1 attribute1 = inr topic1
    /\ BaseSensor.topic_for_attribute config id2 attribute2 = inr topic2
    /\ topic1 <> topic2.
Proof.
  intros Hmqtt Htf Hid Hattr Hne Hside.
  destruct (has_field_parse _ _ Hid (or_introl eq_refl)) as (ps & Hps & Hin1).
  destruct (has_field_parse _ _ Hattr (or_intror eq_refl)) as (ps' & Hps' & Hin2).
  rewrite Hps in Hps'. injection Hps' as <-.
  unfold BaseSensor.topic_for_attribute, config_section, section_getitem, format.
  literal_options. rewrite Hmqtt, Htf, Hps.
  eexists _, _. split; [reflexivity|]. split; [reflexivity|].
  intros Heq. apply Hne.
  destruct (render_injective ps _ _ _ _ Hin1 Hin2 Hside Heq) as [-> ->].
  reflexivity.
Qed.

End TopicNaming.

(** C3 (as stated) fails: with the template {id}/{attribute} the distinct
    pairs (a/b, c) and (a, b/c) are both sent to the topic a/b/c. *)
Lemma topic_for_attribute_collision :
  let config : gmap string section :=
    {[ "mqtt" := [("topic_format", "{id}/{attribute}")] ]} in
  has_field FieldId "{id}/{attribute}" = true
  /\ has_field FieldAttribute "{id}/{attribute}" = true
  /\ ("a/b", "c") <> ("a", "b/c")
  /\ format "{id}/{attribute}" "c" "a/b" = format "{id}/{attribute}" "b/c" "a"
  /\ BaseSensor.topic_for_attribute (H := simulated) config "a/b" "c" = inr "a/b/c"
  /\ BaseSensor.topic_for_attribute (H := simulated) config "a" "b/c" = inr "a/b/c".
Proof.
  repeat split; try reflexivity. discriminate.
Qed.

Lemma topic_for_attribute_injective_witness :
  exists topic1 topic2,
    BaseSensor.topic_for_attribute (H := simulated)
      {[ "mqtt" := [("topic_format", "home/{id}/{attribute}")] ]} "pi1" "temperature"
    = inr topic1
    /\ BaseSensor.topic_for_attribute (H := simulated)
      {[ "mqtt" := [("topic_format", "home/{id}/{attribute}")] ]} "pi2" "humidity"
    = inr topic2
    /\ topic1 <> topic2.
Proof.
  apply (topic_for_attribute_injective (H := simulated)
           {[ "mqtt" := [("topic_format", "home/{id}/{attribute}")] ]}
           [("topic_format", "home/{id}/{attribute}")]
           "home/{id}/{attribute}" "pi1" "pi2" "temperature" "humidity").
  - reflexivity.
  - reflexivity.
  - reflexivity.
  - reflexivity.
  - discriminate.
  - left. reflexivity.
Defined.

(** ** The stabilisation protocol of the environmental sensor *)

Section Stabilisation.
Context `{Builtins}.

Lemma attempt_ok_acquire (s : bme680.BME680) (k : nat) :
  1 <= k -> attempt_ok (acquire s) k = attempt_ok s (S k).
Proof.
  intros Hk. unfold attempt_ok, attempt_data. simpl.
  replace (S (bme680.calls s + pred k)) with (bme680.calls s + k) by lia.
  reflexivity.
Qed.

Lemma attempt_data_acquire (s : bme680.BME680) (k : nat) :
  1 <= k -> attempt_data (acquire s) k = attempt_data s (S k).
Proof.
  intros Hk. unfold attempt_data. simpl.
  replace (S (bme680.calls s + pred k)) with (bme680.calls s + k) by lia.
  reflexivity.
Qed.

(** One turn of the loop. *)
Lemma stabilise_step (n : nat) (s : bme680.BME680) :
  BME680Sensor.stabilise (S n) s
  = if attempt_ok s 1 then ([GetSensorData], inr (true, acquire s))
    else (GetSensorData :: Sleep (1 # 2) :: fst (BME680Sensor.stabilise n (acquire s)),
          snd (BME680Sensor.stabilise n (acquire s))).
Proof.
  unfold attempt_ok, attempt_data, acquire. simpl.
  rewrite Nat.add_0_r.
  unfold bme680.get_sensor_data, bind, emit, ret. simpl.
  destruct (acquisition (bme680.chip s) (bme680.calls s)) as [fresh d]. simpl.
  destruct (fresh && heat_stable d); [reflexivity|].
  destruct (BME680Sensor.stabilise n _) as [t r]. reflexivity.
Qed.

Lemma failed_attempts_S (k : nat) :
  failed_attempts (S k) = GetSensorData :: Sleep (1 # 2) :: failed_attempts k.
Proof. reflexivity. Qed.

Lemma stabilise_exhausted (n : nat) : forall s : bme680.BME680,
  (forall k, 1 <= k <= n -> attempt_ok s k = false) ->
  BME680Sensor.stabilise n s = (failed_attempts n, inr (false, advance n s)).
Proof.
  induction n as [|n IH]; intros s Hfail; [reflexivity|].
  rewrite stabilise_step, (Hfail 1) by lia.
  rewrite IH; [reflexivity|].
  intros k Hk. rewrite attempt_ok_acquire by lia. apply Hfail. lia.
Qed.

Lemma stabilise_break (n : nat) : forall (s : bme680.BME680) (k : nat),
  1 <= k <= n ->
  attempt_ok s k = true ->
  (forall j, 1 <= j < k -> attempt_ok s j = false) ->
  BME680Sensor.stabilise n s
  = (failed_attempts (pred k) ++ [GetSensorData], inr (true, advance k s)).
Proof.
  induction n as [|n IH]; intros s k Hk Hok Hfail; [lia|].
  rewrite stabilise_step.
  destruct k as [|[|k]]; [lia| |].
  - rewrite Hok. reflexivity.
  - rewrite (Hfail 1) by lia.
    rewrite (IH (acquire s) (S k)).
    + reflexivity.
    + lia.
    + rewrite attempt_ok_acquire by lia. exact Hok.
    + intros j Hj. rewrite attempt_ok_acquire by lia. apply Hfail. lia.
Qed.

Lemma advance_calls (k : nat) : forall s : bme680.BME680,
  bme680.calls (advance k s) = bme680.calls s + k.
Proof.
  induction k as [|k IH]; intros s; simpl; [lia|].
  rewrite IH. simpl. lia.
Qed.

Lemma advance_data (k : nat) : forall s : bme680.BME680,
  1 <= k -> bme680.data (advance k s) = attempt_data s k.
Proof.
  induction k as [|k IH]; intros s Hk; [lia|].
  destruct k as [|k].
  - simpl. unfold attempt_data. simpl. now rewrite Nat.add_0_r.
  - change (advance (S (S k)) s) with (advance (S k) (acquire s)).
    rewrite IH by lia. apply attempt_data_acquire. lia.
Qed.

(** Among the first n attempts either all fail or there is a first one
    that succeeds. *)
Lemma first_success (s : bme680.BME680) (n : nat) :
  (forall k, 1 <= k <= n -> attempt_ok s k = false)
  \/ (exists k, 1 <= k <= n /\ attempt_ok s k = true
                /\ forall j, 1 <= j < k -> attempt_ok s j = false).
Proof.
  induction n as [|n [IH|IH]].
  - left. intros k Hk. lia.
  - destruct (attempt_ok s (S n)) eqn:Hn.
    + right. exists (S n). split; [lia|]. split; [exact Hn|].
      intros j Hj. apply IH. lia.
    + left. intros k Hk. destruct (Nat.eq_dec k (S n)) as [->|Hne]; [exact Hn|].
      apply IH. lia.
  - right. destruct IH as (k & Hk & Hok & Hfail).
    exists k. split; [lia|]. split; assumption.
Qed.

Lemma acquisitions_app (t1 t2 : list event) :
  acquisitions (t1 ++ t2) = acquisitions t1 + acquisitions t2.
Proof. induction t1 as [|[] t1 IH]; simpl; auto. Qed.

Lemma waits_app (t1 t2 : list event) : waits (t1 ++ t2) = waits t1 + waits t2.
Proof. induction t1 as [|[] t1 IH]; simpl; auto. Qed.

Lemma acquisitions_failed (k : nat) : acquisitions (failed_attempts k) = k.
Proof. induction k as [|k IH]; [reflexivity|]. rewrite failed_attempts_S. simpl. now rewrite IH. Qed.

Lemma waits_failed (k : nat) : waits (failed_attempts k) = k.
Proof. induction k as [|k IH]; [reflexivity|]. rewrite failed_attempts_S. simpl. now rewrite IH. Qed.

Lemma waited_app (t1 t2 : list event) :
  (waited (t1 ++ t2) == waited t1 + waited t2)%Q.
Proof.
  induction t1 as [|[] t1 IH]; simpl; try rewrite IH; ring.
Qed.

Lemma waited_failed (k : nat) :
  (waited (failed_attempts k) == inject_Z (Z.of_nat k) * (1 # 2))%Q.
Proof.
  induction k as [|k IH]; [reflexivity|].
  rewrite failed_attempts_S. simpl waited. rewrite IH.
  rewrite Nat2Z.inj_succ. unfold Z.succ. rewrite inject_Z_plus. ring.
Qed.

(** The events of a read are those of the loop: computing the topics and
    reading the data object emit nothing. *)
Lemma topics_and_values_trace (config : gmap string section) (self : BME680Sensor.t) :
  trace (BME680Sensor.topics_and_values config self)
  = trace (BME680Sensor.stabilise 60 (BME680Sensor._sensor self)).
Proof.
  unfold BME680Sensor.topics_and_values, trace.
  destruct (BME680Sensor.stabilise 60 _) as [t [e|[found sensor]]]; [reflexivity|].
  rewrite bind_inr. cbv beta iota.
  destruct found; [|simpl; apply app_nil_r].
  cbn [BME680Sensor.mqtt_id].
  destruct (BaseSensor.topic_for_attribute config _ "temperature");
    destruct (BaseSensor.topic_for_attribute config _ "humidity");
    destruct (BaseSensor.topic_for_attribute config _ "pressure");
    destruct (BaseSensor.topic_for_attribute config _ "gas_resistance");
    simpl; apply app_nil_r.
Qed.

(** C1: a read of the environmental sensor returns the empty list exactly
    when none of the 60 attempts reports data present and the heater
    stable; otherwise, with k the first attempt that does (k = 60
    included), it makes exactly k acquisitions and returns the four pairs
    temperature, humidity, pressure, gas_resistance, whose values are the
    fields of the data object that k-th acquisition left. *)
Theorem readings_after_stabilisation
    (config : gmap string section) (self : BME680Sensor.t) :
  let sensor := BME680Sensor._sensor self in
  let id := BME680Sensor.mqtt_id self in
  let run := BME680Sensor.topics_and_values config self in
  ((exists self', outcome run = inr ([], self'))
   <-> (forall k, 1 <= k <= 60 -> attempt_ok sensor k = false))
  /\ (forall k t1 t2 t3 t4,
        1 <= k <= 60 ->
        attempt_ok sensor k = true ->
        (forall j, 1 <= j < k -> attempt_ok sensor j = false) ->
        BaseSensor.topic_for_attribute config id "temperature" = inr t1 ->
        BaseSensor.topic_for_attribute config id "humidity" = inr t2 ->
        BaseSensor.topic_for_attribute config id "pressure" = inr t3 ->
        BaseSensor.topic_for_attribute config id "gas_resistance" = inr t4 ->
        exists self',
          outcome run
          = inr ([ (t1, temperature (attempt_data sensor k));
                   (t2, humidity (attempt_data sensor k));
                   (t3, pressure (attempt_data sensor k));
                   (t4, gas_resistance (attempt_data sensor k)) ], self')
          /\ acquisitions (trace run) = k
          /\ bme680.calls (BME680Sensor._sensor self') = bme680.calls sensor + k
          /\ BME680Sensor.mqtt_id self' = id).
Proof.
  intros sensor id run. split; [split|].
  - intros [self' Hempty].
    destruct (first_success sensor 60) as [Hfail|(k & Hk & Hok & Hfail)];
      [exact Hfail|exfalso].
    revert Hempty. unfold run, outcome, BME680Sensor.topics_and_values.
    fold sensor. rewrite (stabilise_break 60 sensor k Hk Hok Hfail).
    rewrite bind_inr. cbv beta iota. cbn [BME680Sensor.mqtt_id].
    destruct (BaseSensor.topic_for_attribute config _ "temperature");
      destruct (BaseSensor.topic_for_attribute config _ "humidity");
      destruct (BaseSensor.topic_for_attribute config _ "pressure");
      destruct (BaseSensor.topic_for_attribute config _ "gas_resistance");
      simpl; discriminate.
  - intros Hfail.
    unfold run, outcome, BME680Sensor.topics_and_values. fold sensor.
    rewrite (stabilise_exhausted 60 sensor Hfail).
    rewrite bind_inr. cbv beta iota. eexists. reflexivity.
  - intros k t1 t2 t3 t4 Hk Hok Hfail H1 H2 H3 H4.
    assert (Hrun : run = (failed_attempts (pred k) ++ [GetSensorData],
              inr ([ (t1, temperature (attempt_data sensor k));
                     (t2, humidity (attempt_data sensor k));
                     (t3, pressure (attempt_data sensor k));
                     (t4, gas_resistance (attempt_data sensor k)) ],
                   {| BME680Sensor.mqtt_id := id;
                      BME680Sensor._sensor := advance k sensor |}))).
    { unfold run, BME680Sensor.topics_and_values. fold sensor.
      rewrite (stabilise_break 60 sensor k Hk Hok Hfail).
      rewrite bind_inr. cbv beta iota. cbn [BME680Sensor.mqtt_id]. fold id.
      rewrite H1, H2, H3, H4, !bind_lift_inr.
      rewrite (advance_data k sensor) by lia.
      unfold ret. cbn [fst snd]. rewrite app_nil_r. reflexivity. }
    rewrite Hrun. eexists. split; [reflexivity|].
    unfold trace. cbn [fst BME680Sensor._sensor BME680Sensor.mqtt_id].
    rewrite acquisitions_app, acquisitions_failed, advance_calls. simpl.
    repeat split; lia.
Qed.

(** C8 (as amended): the half-unit wait follows every failed attempt.  A
    read that succeeds at attempt k runs k acquisitions with a wait after
    each of the first k-1, so k-1 waits; a read whose 60 attempts all fail
    waits after each of them, the last included: 60 waits, 30 time-units in
    all, which no read exceeds. *)
Theorem stabilisation_waits
    (config : gmap string section) (self : BME680Sensor.t) :
  let sensor := BME680Sensor._sensor self in
  let run := trace (BME680Sensor.topics_and_values config self) in
  (forall k, 1 <= k <= 60 ->
     attempt_ok sensor k = true ->
     (forall j, 1 <= j < k -> attempt_ok sensor j = false) ->
     run = failed_attempts (k - 1) ++ [GetSensorData] /\ waits run = k - 1)
  /\ ((forall k, 1 <= k <= 60 -> attempt_ok sensor k = false) ->
      run = failed_attempts 60 /\ waits run = 60 /\ (waited run == 30)%Q)
  /\ (waits run <= 60 /\ (waited run <= 30)%Q).
Proof.
  intros sensor run.
  assert (Hbreak : forall k, 1 <= k <= 60 ->
            attempt_ok sensor k = true ->
            (forall j, 1 <= j < k -> attempt_ok sensor j = false) ->
            run = failed_attempts (k - 1) ++ [GetSensorData]).
  { intros k Hk Hok Hfail. unfold run. rewrite topics_and_values_trace. fold sensor.
    rewrite (stabilise_break 60 sensor k Hk Hok Hfail).
    replace (pred k) with (k - 1) by lia. reflexivity. }
  assert (Hall : (forall k, 1 <= k <= 60 -> attempt_ok sensor k = false) ->
            run = failed_attempts 60).
  { intros Hfail. unfold run. rewrite topics_and_values_trace. fold sensor.
    rewrite (stabilise_exhausted 60 sensor Hfail). reflexivity. }
  split; [|split].
  - intros k Hk Hok Hfail. rewrite (Hbreak k Hk Hok Hfail).
    split; [reflexivity|]. rewrite waits_app, waits_failed. simpl. lia.
  - intros Hfail. rewrite (Hall Hfail).
    split; [reflexivity|]. split; [apply waits_failed|].
    rewrite waited_failed. reflexivity.
  - destruct (first_success sensor 60) as [Hfail|(k & Hk & Hok & Hfail)].
    + rewrite (Hall Hfail). rewrite waits_failed, waited_failed.
      split; [lia|]. unfold Qle. simpl. lia.
    + rewrite (Hbreak k Hk Hok Hfail).
      rewrite waits_app, waits_failed, waited_app, waited_failed. simpl.
      split; [lia|]. unfold Qle, Qplus, Qmult, inject_Z. simpl. lia.
Qed.

End Stabilisation.

(** The simulated driver of the spec's test: unstable for 59 attempts, stable
    with data at the 60th. *)
Lemma readings_after_stabilisation_witness :
  exists self',
    outcome (BME680Sensor.topics_and_values home_config warming_sensor)
    = inr ([ ("home/pi1/temperature", temperature (attempt_data (fresh_driver (warming_chip 59)) 60));
             ("home/pi1/humidity", humidity (attempt_data (fresh_driver (warming_chip 59)) 60));
             ("home/pi1/pressure", pressure (attempt_data (fresh_driver (warming_chip 59)) 60));
             ("home/pi1/gas_resistance",
               gas_resistance (attempt_data (fresh_driver (warming_chip 59)) 60)) ], self')
    /\ acquisitions (trace (BME680Sensor.topics_and_values home_config warming_sensor)) = 60
    /\ bme680.calls (BME680Sensor._sensor self') = 0 + 60
    /\ BME680Sensor.mqtt_id self' = "pi1".
Proof.
  apply (proj2 (readings_after_stabilisation home_config warming_sensor) 60).
  - lia.
  - reflexivity.
  - intros j Hj.
    change (true && (59 <=? 0 + pred j)%nat = false).
    destruct (Nat.leb_spec 59 (0 + pred j)); [lia|reflexivity].
  - reflexivity.
  - reflexivity.
  - reflexivity.
  - reflexivity.
Defined.

Example warming_sensor_readings :
  outcome (BME680Sensor.topics_and_values home_config warming_sensor)
  = inr ([ ("home/pi1/temperature", "21.5"); ("home/pi1/humidity", "40.1");
           ("home/pi1/pressure", "1013.2"); ("home/pi1/gas_resistance", "12000") ],
         @BME680Sensor.Build_t simulated "pi1"
           (advance 60 (fresh_driver (warming_chip 59)))).
Proof. vm_compute. reflexivity. Qed.

Example cold_sensor_readings :
  exists self', outcome (BME680Sensor.topics_and_values home_config cold_sensor) = inr ([], self').
Proof. eexists. vm_compute. reflexivity. Qed.

(** C8 (as stated) fails: on a sensor that never stabilises all 60 attempts
    fail and the read makes 60 waits, not 59; the last event of the read is
    a wait that no attempt follows. *)
Lemma stabilisation_waits_all_fail :
  (forall k, 1 <= k <= 60 -> attempt_ok (BME680Sensor._sensor cold_sensor) k = false)
  /\ waits (trace (BME680Sensor.topics_and_values home_config cold_sensor)) = 60
  /\ waits (trace (BME680Sensor.topics_and_values home_config cold_sensor)) <> 59
  /\ last (trace (BME680Sensor.topics_and_values home_config cold_sensor))
     = Some (Sleep (1 # 2)).
Proof.
  split; [intros k Hk; reflexivity|].
  split; [vm_compute; reflexivity|].
  split; [vm_compute; discriminate|].
  vm_compute. reflexivity.
Qed.

Lemma stabilisation_waits_witness :
  trace (BME680Sensor.topics_and_values home_config warming_sensor)
  = failed_attempts (60 - 1) ++ [GetSensorData]
  /\ waits (trace (BME680Sensor.topics_and_values home_config warming_sensor)) = 60 - 1.
Proof.
  apply (proj1 (stabilisation_waits home_config warming_sensor) 60).
  - lia.
  - reflexivity.
  - intros j Hj.
    change (true && (59 <=? 0 + pred j)%nat = false).
    destruct (Nat.leb_spec 59 (0 + pred j)); [lia|reflexivity].
Defined.


(** ** Discovery *)

Section Discovery.
Context `{Builtins}.

Lemma init_fields (env : Env) (mqtt_id : string) (i2c_addr : option Z)
    (i2c_device : option nat) (s : BME680Sensor.t) :
  BME680Sensor.__init__ env mqtt_id i2c_addr i2c_device = inr s ->
  BME680Sensor.mqtt_id s = mqtt_id
  /\ bme680.i2c_device (BME680Sensor._sensor s) = i2c_device
  /\ bme680.i2c_addr (BME680Sensor._sensor s)
     = (if BME680Sensor.truthy i2c_addr then i2c_addr else None)
  /\ chip_at env (if BME680Sensor.truthy i2c_addr then i2c_addr else None) i2c_device
     = inr (bme680.chip (BME680Sensor._sensor s)).
Proof.
  unfold BME680Sensor.__init__, bme680.new.
  destruct (BME680Sensor.truthy i2c_addr);
    destruct (chip_at env _ i2c_device) as [e|c]; try discriminate;
    intros Hs; injection Hs as <-; simpl; auto.
Qed.

Lemma init_raises (env : Env) (mqtt_id : string) (i2c_addr : option Z)
    (i2c_device : option nat) (e : exn) :
  BME680Sensor.__init__ env mqtt_id i2c_addr i2c_device = inl e
  <-> chip_at env (if BME680Sensor.truthy i2c_addr then i2c_addr else None) i2c_device
      = inl e.
Proof.
  unfold BME680Sensor.__init__, bme680.new.
  destruct (BME680Sensor.truthy i2c_addr);
    destruct (chip_at env _ i2c_device) as [e'|c]; split; intros Hs;
    try discriminate; injection Hs as <-; reflexivity.
Qed.

Lemma scan_buses_trace (env : Env) (bus_ids : list Z) : forall dev,
  trace (BME680Sensor.scan_buses env bus_ids dev) = [].
Proof.
  induction bus_ids as [|b rest IH]; intros dev; simpl; [reflexivity|].
  destruct (SMBus env b) as [e|h]; [|apply IH].
  destruct (is_FileNotFoundError e); [apply IH|reflexivity].
Qed.

(** The loop over the configured items constructs them in order and stops
    at the first construction that raises. *)
Lemma create_configured_run (env : Env) (dev : option nat) (items : section) :
  forall acc : list BME680Sensor.t,
    trace (BME680Sensor.create_configured env dev items acc) = []
    /\ ((exists created,
           Forall2 (fun item s => construct_item env dev item = inr s) items created
           /\ outcome (BME680Sensor.create_configured env dev items acc)
              = inr (acc ++ created))
        \/ (exists before item after created e,
              items = before ++ item :: after
              /\ Forall2 (fun item s => construct_item env dev item = inr s) before created
              /\ construct_item env dev item = inl e
              /\ outcome (BME680Sensor.create_configured env dev items acc) = inl e)).
Proof.
  induction items as [|[i2c_addr mqtt_id] rest IH]; intros acc.
  - split; [reflexivity|]. left. exists []. split; [constructor|].
    simpl. now rewrite app_nil_r.
  - destruct (construct_item env dev (i2c_addr, mqtt_id)) as [e|s] eqn:Hitem.
    + assert (Hrun : BME680Sensor.create_configured env dev ((i2c_addr, mqtt_id) :: rest) acc
                     = ([], inl e)).
      { revert Hitem. unfold construct_item.
        cbn [BME680Sensor.create_configured fst snd].
        destruct (int_or_raise i2c_addr 16) as [e'|addr].
        - intros [= ->]. reflexivity.
        - intros Hinit. rewrite bind_lift_inr, Hinit. reflexivity. }
      rewrite Hrun. split; [reflexivity|]. right.
      exists [], (i2c_addr, mqtt_id), rest, [], e.
      repeat split; auto.
    + assert (Hrun : BME680Sensor.create_configured env dev ((i2c_addr, mqtt_id) :: rest) acc
                     = BME680Sensor.create_configured env dev rest (acc ++ [s])).
      { revert Hitem. unfold construct_item.
        cbn [BME680Sensor.create_configured fst snd].
        destruct (int_or_raise i2c_addr 16) as [e'|addr]; [discriminate|].
        intros Hinit. now rewrite bind_lift_inr, Hinit, bind_lift_inr. }
      rewrite Hrun.
      destruct (IH (acc ++ [s])) as [Htr [(created & Hall & Hout)|Hfail]].
      * split; [exact Htr|]. left. exists (s :: created).
        split; [constructor; assumption|].
        rewrite Hout. now rewrite <- app_assoc.
      * split; [exact Htr|]. right.
        destruct Hfail as (before & item & after & created & e & -> & Hall & He & Hout).
        exists ((i2c_addr, mqtt_id) :: before), item, after, (s :: created), e.
        repeat split; auto.
Qed.

Lemma create_sensors_run (env : Env) :
  BME680Sensor.create_sensors env
  = ([], match outcome (BME680Sensor.scan_buses env [0; 1]%Z None) with
         | inl e => inl e
         | inr dev =>
             match config_section (config env) "bme680sensors" with
             | inl e => inl e
             | inr items =>
                 match outcome (BME680Sensor.create_configured env dev items []) with
                 | inl e => inl e
                 | inr [] => default_sensor env dev
                 | inr (s :: sensors) => inr (s :: sensors)
                 end
             end
         end).
Proof.
  rewrite (run_eta (BME680Sensor.create_sensors env)).
  unfold BME680Sensor.create_sensors.
  rewrite trace_bind, outcome_bind, scan_buses_trace.
  destruct (outcome (BME680Sensor.scan_buses env [0; 1]%Z None)) as [e|dev];
    [reflexivity|].
  cbv beta iota. rewrite trace_bind, outcome_bind, trace_lift, outcome_lift.
  destruct (config_section (config env) "bme680sensors") as [e|items];
    [reflexivity|].
  cbv beta iota. cbn [app]. rewrite trace_bind, outcome_bind.
  rewrite (proj1 (create_configured_run env dev items [])).
  destruct (outcome (BME680Sensor.create_configured env dev items [])) as [e|[|s sensors]];
    [reflexivity| |reflexivity].
  unfold default_sensor. cbv beta iota. cbn [app].
  destruct (config_section (config env) "general") as [e|general]; [reflexivity|].
  rewrite bind_lift_inr.
  change (section_get general "hostname" (first_label (gethostname env)))
    with (resolved_hostname env general).
  destruct (BME680Sensor.__init__ env (resolved_hostname env general) None dev) as [e|s];
    [|reflexivity].
  destruct (is_OSError e); reflexivity.
Qed.

Lemma construct_item_fields (env : Env) (dev : option nat) (item : string * string)
    (s : BME680Sensor.t) :
  construct_item env dev item = inr s ->
  BME680Sensor.mqtt_id s = snd item
  /\ bme680.i2c_device (BME680Sensor._sensor s) = dev
  /\ exists addr, int (fst item) 16 = Some addr
       /\ bme680.i2c_addr (BME680Sensor._sensor s)
          = (if (addr =? 0)%Z then None else Some addr).
Proof.
  unfold construct_item, int_or_raise.
  destruct (int (fst item) 16) as [addr|]; [|discriminate].
  intros Hs. destruct (init_fields _ _ _ _ _ Hs) as (Hid & Hdev & Haddr & _).
  split; [exact Hid|]. split; [exact Hdev|].
  exists addr. split; [reflexivity|].
  rewrite Haddr. unfold BME680Sensor.truthy. destruct (addr =? 0)%Z; reflexivity.
Qed.


Lemma is_FileNotFoundError_true (e : exn) :
  is_FileNotFoundError e = true <-> e = FileNotFoundError.
Proof. destruct e; simpl; split; congruence. Qed.


(** C7: with an empty bme680sensors section one sensor is constructed at the
    driver's default address under the resolved hostname (the hostname
    option of the general section, else the part of the system hostname
    before its first dot); an OSError from
    that construction is swallowed and the result is empty, any other
    exception propagates.  With configured sensors the first construction
    that raises ends create_sensors with that exception, an OSError
    included. *)
Theorem default_sensor_tolerates_absence (env : Env) (i2c_device : option nat) :
  outcome (BME680Sensor.scan_buses env [0; 1]%Z None) = inr i2c_device ->
  (forall general : section,
     config env !! "bme680sensors" = Some ([] : section) ->
     config env !! "general" = Some general ->
     (forall c, chip_at env None i2c_device = inr c ->
        exists s, BME680Sensor.create_sensors env = ret [s]
          /\ is_resolved_hostname env general (BME680Sensor.mqtt_id s)
          /\ bme680.i2c_addr (BME680Sensor._sensor s) = None
          /\ bme680.i2c_device (BME680Sensor._sensor s) = i2c_device
          /\ bme680.chip (BME680Sensor._sensor s) = c)
     /\ (forall e, chip_at env None i2c_device = inl e -> is_OSError e = true ->
           BME680Sensor.create_sensors env = ret [])
     /\ (forall e, chip_at env None i2c_device = inl e -> is_OSError e = false ->
           BME680Sensor.create_sensors env = raise e))
  /\ (forall (before : section) item (after : section) created e,
        config env !! "bme680sensors" = Some ((before ++ item :: after) : section) ->
        Forall2 (fun item s => construct_item env i2c_device item = inr s) before created ->
        construct_item env i2c_device item = inl e ->
        BME680Sensor.create_sensors env = raise e).
Proof.
  intros Hscan. split.
  - intros general Hitems Hgeneral.
    assert (Hrun : BME680Sensor.create_sensors env
                   = ([], match BME680Sensor.__init__ env (resolved_hostname env general)
                                  None i2c_device with
                          | inr s => inr [s]
                          | inl e => if is_OSError e then inr [] else inl e
                          end)).
    { rewrite create_sensors_run, Hscan. unfold config_section, default_sensor.
      rewrite Hitems. cbn [BME680Sensor.create_configured outcome ret snd].
      unfold config_section. rewrite Hgeneral. reflexivity. }
    rewrite Hrun. repeat split.
    + intros c Hc.
      destruct (BME680Sensor.__init__ env (resolved_hostname env general) None i2c_device)
        as [e|s] eqn:Hinit.
      * apply init_raises in Hinit. simpl in Hinit. congruence.
      * exists s. split; [reflexivity|].
        destruct (init_fields _ _ _ _ _ Hinit) as (Hid & Hdev & Haddr & Hchip).
        simpl in Haddr, Hchip. rewrite Hid.
        split; [apply resolved_hostname_is_resolved|].
        repeat split; auto. congruence.
    + intros e He Hos.
      rewrite (proj2 (init_raises env (resolved_hostname env general) None i2c_device e) He).
      rewrite Hos. reflexivity.
    + intros e He Hos.
      rewrite (proj2 (init_raises env (resolved_hostname env general) None i2c_device e) He).
      rewrite Hos. reflexivity.
  - intros before item after created e Hitems Hbefore Hitem.
    rewrite create_sensors_run, Hscan. unfold config_section. rewrite Hitems.
    destruct (create_configured_run env i2c_device (before ++ item :: after) [])
      as [_ [(created' & Hall & _)|Hfail]].
    + exfalso. apply Forall2_app_inv_l in Hall as (c1 & c2 & _ & Hrest & _).
      inversion Hrest as [|? s ? ? Hok]; subst. congruence.
    + destruct Hfail as (before' & item' & after' & created' & e' & Heq & Hall' & He' & Hout).
      rewrite Hout.
      assert (before' = before /\ item' = item) as [-> ->].
      { clear Hout Hitems. revert before' created' Heq Hall'.
        induction Hbefore as [|b s before created Hb _ IH]; intros before' created' Heq Hall'.
        - destruct Hall' as [|b' s' before' created' Hb' _]; simpl in Heq.
          + injection Heq as -> _. auto.
          + injection Heq as -> _. congruence.
        - destruct Hall' as [|b' s' before' created' Hb' Hall']; simpl in Heq.
          + injection Heq as <- _. congruence.
          + injection Heq as -> Heq. destruct (IH _ _ Heq Hall') as [-> ->]. auto. }
      assert (e' = e) as -> by congruence. reflexivity.
Qed.

End Discovery.



Lemma default_sensor_tolerates_absence_witness :
  BME680Sensor.create_sensors (host home_config bus0_only chip_absent None) = ret []
  /\ exists s,
       BME680Sensor.create_sensors (host home_config bus0_only chip_present None) = ret [s]
       /\ BME680Sensor.mqtt_id s = "pi1".
Proof.
  split.
  - refine (proj1 (proj2 (proj1 (default_sensor_tolerates_absence
              (host home_config bus0_only chip_absent None) (Some 3) _)
              [("delay", "30")] _ _)) OSError _ _).
    + reflexivity.
    + vm_compute. reflexivity.
    + vm_compute. reflexivity.
    + reflexivity.
    + reflexivity.
  - assert (Hfound : exists s,
              BME680Sensor.create_sensors (host home_config bus0_only chip_present None)
              = ret [s]
              /\ is_resolved_hostname (host home_config bus0_only chip_present None)
                   [("delay", "30")] (BME680Sensor.mqtt_id s)
              /\ bme680.i2c_addr (BME680Sensor._sensor s) = None
              /\ bme680.i2c_device (BME680Sensor._sensor s) = Some 3
              /\ bme680.chip (BME680Sensor._sensor s) = warming_chip 2).
    { refine (proj1 (proj1 (default_sensor_tolerates_absence
                (host home_config bus0_only chip_present None) (Some 3) _)
                [("delay", "30")] _ _) (warming_chip 2) _).
      + reflexivity.
      + vm_compute. reflexivity.
      + vm_compute. reflexivity.
      + reflexivity. }
    destruct Hfound as (s & Hrun & Hname & _).
    exists s. split; [exact Hrun|].
    symmetry. exact (is_resolved_hostname_unique _ _ _ Hname).
Defined.

Example default_sensor_found :
  match outcome (BME680Sensor.create_sensors
                   (host home_config bus0_only chip_present None)) with
  | inr sensors => map BME680Sensor.mqtt_id sensors
  | inl _ => []
  end = ["pi1"].
Proof. vm_compute. reflexivity. Qed.


(** ** One-wire discovery *)

Section W1Discovery.
Context `{Builtins}.

Lemma create_each_trace (config : gmap string section) (hostname : string)
    (probes : list W1ThermSensor) :
  trace (W1Sensor.create_each config hostname probes) = [].
Proof.
  induction probes as [|p rest IH]; [reflexivity|].
  cbn [W1Sensor.create_each]. rewrite trace_bind, trace_lift, outcome_lift.
  destruct (config_section config "w1sensors") as [e|w1sensors]; [reflexivity|].
  cbv beta iota. rewrite trace_bind, IH.
  destruct (outcome (W1Sensor.create_each config hostname rest)); reflexivity.
Qed.

Lemma create_each_run (config : gmap string section) (hostname : string)
    (w1sensors : section) (probes : list W1ThermSensor) :
  config !! "w1sensors" = Some w1sensors ->
  W1Sensor.create_each config hostname probes
  = ret (map (fun p => W1Sensor.__init__
                         (section_get w1sensors (id p) (hostname +:+ "_" +:+ id p)) p)
             probes).
Proof.
  intros Hw. induction probes as [|p rest IH]; [reflexivity|].
  cbn [W1Sensor.create_each map]. unfold config_section.
  rewrite Hw, bind_lift_inr, IH. reflexivity.
Qed.

Lemma w1_create_sensors_trace (env : Env) : trace (W1Sensor.create_sensors env) = [].
Proof.
  unfold W1Sensor.create_sensors.
  destruct (w1 env) as [probes|]; [|reflexivity].
  rewrite trace_bind, trace_lift, outcome_lift.
  destruct (config_section (config env) "general") as [e|general]; [reflexivity|].
  cbv beta iota. cbn [app].
  destruct (length probes =? 1)%nat; [|apply create_each_trace].
  destruct probes as [|p rest]; [reflexivity|].
  rewrite trace_bind, trace_lift, outcome_lift.
  destruct (config_section (config env) "w1sensors"); reflexivity.
Qed.

(** C2: every discovered probe becomes one sensor, in enumeration order.
    With [hostname] the resolved hostname (the hostname option of the
    general section, else the part of the system hostname before its first
    dot): a probe with an entry in the w1sensors section (under its id as
    optionxform spells it) gets that entry as its mqtt_id, whether it is
    alone or not; without an entry a lone probe gets the resolved hostname
    and a probe among several gets hostname_probeid. *)
Theorem w1_identity_resolution (env : Env) (probes : list W1ThermSensor)
    (general w1sensors : section) (hostname : string) :
  w1 env = Some probes ->
  config env !! "general" = Some general ->
  config env !! "w1sensors" = Some w1sensors ->
  is_resolved_hostname env general hostname ->
  exists sensors,
    W1Sensor.create_sensors env = ret sensors
    /\ map W1Sensor._sensor sensors = probes
    /\ Forall (fun s =>
         let probe := W1Sensor._sensor s in
         (forall entry, section_lookup w1sensors (lower (id probe)) = Some entry ->
            W1Sensor.mqtt_id s = entry)
         /\ (section_lookup w1sensors (lower (id probe)) = None ->
             length probes = 1 ->
             W1Sensor.mqtt_id s = hostname)
         /\ (section_lookup w1sensors (lower (id probe)) = None ->
             length probes <> 1 ->
             W1Sensor.mqtt_id s = hostname +:+ "_" +:+ id probe)) sensors.
Proof.
  intros Hw1 Hgeneral Hw Hhost.
  apply is_resolved_hostname_unique in Hhost.
  unfold W1Sensor.create_sensors. rewrite Hw1. unfold config_section at 1.
  rewrite Hgeneral, bind_lift_inr.
  change (section_get general "hostname" (first_label (gethostname env)))
    with (resolved_hostname env general).
  rewrite Hhost.
  destruct (length probes =? 1)%nat eqn:Hlen.
  - destruct probes as [|p [|q rest]]; try discriminate.
    unfold config_section. rewrite Hw, bind_lift_inr.
    eexists. split; [reflexivity|]. split; [reflexivity|].
    constructor; [|constructor]. cbn. unfold section_get.
    destruct (section_lookup w1sensors (lower (id p))) as [v|].
    + repeat split; intros; congruence.
    + repeat split; intros; try congruence; simpl in *; lia.
  - apply Nat.eqb_neq in Hlen.
    rewrite (create_each_run _ _ w1sensors probes Hw).
    eexists. split; [reflexivity|]. split.
    + clear Hlen Hw1. induction probes as [|p rest IH]; [reflexivity|].
      simpl. now rewrite IH.
    + generalize (length probes) Hlen. intros n Hn.
      clear Hw1 Hlen. induction probes as [|p rest IH]; constructor; [|exact IH].
      cbn. unfold section_get.
      destruct (section_lookup w1sensors (lower (id p))) as [v|].
      * repeat split; intros; congruence.
      * repeat split; intros; try congruence.
Qed.

End W1Discovery.

(** The spec's example: probes 28-aa and 28-bb on host pi1 without
    overrides. *)
Example two_probes_generated_ids :
  match outcome (W1Sensor.create_sensors
                   (host {[ "general" := [("hostname", "pi1")]; "w1sensors" := [] ]}
                         bus0_only chip_absent
                         (Some [probe "28-aa" "21.0"; probe "28-bb" "19.0"]))) with
  | inr sensors => map W1Sensor.mqtt_id sensors
  | inl _ => []
  end = ["pi1_28-aa"; "pi1_28-bb"].
Proof. vm_compute. reflexivity. Qed.

(** A probe the bus lists as 28-BB finds the entry the parser keeps as
    28-bb. *)
Lemma w1_identity_resolution_witness :
  exists sensors,
    W1Sensor.create_sensors
      (host home_config bus0_only chip_absent (Some [probe "28-aa" "21.0"; probe "28-BB" "19.0"]))
    = ret sensors
    /\ map W1Sensor.mqtt_id sensors = ["pi1_28-aa"; "attic"].
Proof.
  destruct (w1_identity_resolution
              (host home_config bus0_only chip_absent
                    (Some [probe "28-aa" "21.0"; probe "28-BB" "19.0"]))
              [probe "28-aa" "21.0"; probe "28-BB" "19.0"]
              [("delay", "30")] [("28-bb", "attic")] "pi1")
    as (sensors & Hrun & Hprobes & Hids).
  - reflexivity.
  - vm_compute. reflexivity.
  - vm_compute. reflexivity.
  - split; [reflexivity|]. right. exists "lan". reflexivity.
  - exists sensors. split; [exact Hrun|].
    destruct sensors as [|s1 [|s2 [|s3 rest]]]; try discriminate.
    injection Hprobes as Hp1 Hp2.
    inversion Hids as [|? ? (_ & _ & H1) Hrest]; subst.
    inversion Hrest as [|? ? (H2 & _) _]; subst.
    cbn zeta in H1, H2. rewrite Hp1 in H1. rewrite Hp2 in H2.
    simpl. rewrite (H1 eq_refl), (H2 "attic" eq_refl).
    + reflexivity.
    + simpl. lia.
Defined.

(** A lone probe listed as 28-BB gets the entry kept as 28-bb, not the
    hostname. *)
Example lone_probe_entry_any_case :
  match outcome (W1Sensor.create_sensors
                   (host home_config bus0_only chip_absent (Some [probe "28-BB" "19.0"]))) with
  | inr sensors => map W1Sensor.mqtt_id sensors
  | inl _ => []
  end = ["attic"].
Proof. vm_compute. reflexivity. Qed.


(** ** The acquisition loop *)

Section Loop.
Context `{Builtins}.

Lemma publishes_app (t1 t2 : list event) :
  publishes (t1 ++ t2) = publishes t1 ++ publishes t2.
Proof. induction t1 as [|[] t1 IH]; simpl; auto. now rewrite IH. Qed.

Lemma publishes_stabilise (n : nat) : forall s : bme680.BME680,
  publishes (trace (BME680Sensor.stabilise n s)) = [].
Proof.
  induction n as [|n IH]; intros s; [reflexivity|].
  rewrite stabilise_step. destruct (attempt_ok s 1); [reflexivity|].
  unfold trace. cbn [fst publishes]. apply IH.
Qed.

(** What a read of an environmental sensor can return. *)
Lemma bme_readings_shape (config : gmap string section) (b b' : BME680Sensor.t)
    (tvs : list (string * value)) :
  outcome (BME680Sensor.topics_and_values config b) = inr (tvs, b') ->
  label (OfBME680 b') = label (OfBME680 b)
  /\ contribution config (OfBME680 b) (map to_message tvs).
Proof.
  unfold BME680Sensor.topics_and_values. rewrite outcome_bind.
  destruct (first_success (BME680Sensor._sensor b) 60) as [Hfail|(k & Hk & Hok & Hfail)].
  - rewrite (stabilise_exhausted 60 _ Hfail). unfold outcome at 1. cbn [snd].
    cbv beta iota. unfold outcome, ret. cbn [snd].
    intros [= <- <-]. split; [reflexivity|]. left. split; [exact Hfail|reflexivity].
  - rewrite (stabilise_break 60 _ k Hk Hok Hfail). unfold outcome at 1. cbn [snd].
    cbv beta iota. cbn [BME680Sensor.mqtt_id].
    rewrite (advance_data k) by lia.
    destruct (BaseSensor.topic_for_attribute config _ "temperature") as [e1|t1] eqn:H1;
      [discriminate|]; rewrite bind_lift_inr.
    destruct (BaseSensor.topic_for_attribute config _ "humidity") as [e2|t2] eqn:H2;
      [discriminate|]; rewrite bind_lift_inr.
    destruct (BaseSensor.topic_for_attribute config _ "pressure") as [e3|t3] eqn:H3;
      [discriminate|]; rewrite bind_lift_inr.
    destruct (BaseSensor.topic_for_attribute config _ "gas_resistance") as [e4|t4] eqn:H4;
      [discriminate|]; rewrite bind_lift_inr.
    unfold outcome, ret. cbn [snd]. intros [= <- <-].
    split; [reflexivity|]. right. exists k.
    split; [exact Hk|]. split; [exact Hok|]. split; [exact Hfail|].
    exists t1, t2, t3, t4. repeat split; assumption.
Qed.

(** What a read of a probe returns. *)
Lemma w1_readings_shape (config : gmap string section) (w w' : W1Sensor.t)
    (tvs : list (string * value)) :
  outcome (W1Sensor.topics_and_values config w) = inr (tvs, w') ->
  label (OfW1 w') = label (OfW1 w)
  /\ contribution config (OfW1 w) (map to_message tvs).
Proof.
  unfold W1Sensor.topics_and_values.
  destruct (BaseSensor.topic_for_attribute config _ "temperature") as [e|t] eqn:Ht;
    [discriminate|].
  rewrite bind_lift_inr. unfold get_temperature.
  destruct (thermometer (W1Sensor._sensor w) (reads (W1Sensor._sensor w)))
    as [e|temp] eqn:Htemp; [discriminate|].
  rewrite bind_lift_inr. unfold outcome, ret. cbn [snd].
  intros [= <- <-]. split; [reflexivity|]. exists t, temp. auto.
Qed.

Lemma readings_shape (config : gmap string section) (s s' : sensor)
    (tvs : list (string * value)) :
  outcome (topics_and_values config s) = inr (tvs, s') ->
  label s' = label s /\ contribution config s (map to_message tvs).
Proof.
  destruct s as [b|w]; unfold topics_and_values; intros Hrun;
    apply outcome_bind_inr in Hrun as ([tvs0 x] & Hx & Hret);
    unfold outcome, ret in Hret; cbn [fst snd] in Hret;
    injection Hret as <- <-.
  - apply (bme_readings_shape _ _ _ _ Hx).
  - apply (w1_readings_shape _ _ _ _ Hx).
Qed.

Lemma publishes_topics_and_values (config : gmap string section) (s : sensor) :
  publishes (trace (topics_and_values config s)) = [].
Proof.
  destruct s as [b|w]; unfold topics_and_values; rewrite trace_bind, publishes_app.
  - rewrite topics_and_values_trace, publishes_stabilise.
    destruct (outcome (BME680Sensor.topics_and_values config b)); reflexivity.
  - unfold W1Sensor.topics_and_values.
    destruct (BaseSensor.topic_for_attribute config _ "temperature") as [e|t];
      [reflexivity|].
    rewrite bind_lift_inr.
    destruct (get_temperature (W1Sensor._sensor w)) as [e|[temp p]]; reflexivity.
Qed.

Lemma publishes_poll (config : gmap string section) (sensors : list sensor) :
  forall acc, publishes (trace (poll config sensors acc)) = [].
Proof.
  induction sensors as [|s rest IH]; intros acc; [reflexivity|].
  cbn [poll]. rewrite trace_bind, publishes_app, publishes_topics_and_values.
  destruct (outcome (topics_and_values config s)) as [e|[tvs s']]; [reflexivity|].
  cbv beta iota. rewrite trace_bind, publishes_app, IH.
  destruct (outcome (poll config rest _)) as [e|[m r]]; reflexivity.
Qed.

(** The batch of a cycle is the concatenation, in sensor order, of what each
    sensor returned, and the sensors keep their identities. *)
Lemma poll_run (config : gmap string section) (sensors : list sensor) :
  forall acc messages sensors',
    outcome (poll config sensors acc) = inr (messages, sensors') ->
    exists readings,
      Forall2 (fun s tvs => exists s', outcome (topics_and_values config s) = inr (tvs, s'))
              sensors readings
      /\ messages = acc ++ concat (map (map to_message) readings)
      /\ map label sensors' = map label sensors.
Proof.
  induction sensors as [|s rest IH]; intros acc messages sensors' Hrun.
  - injection Hrun as <- <-. exists []. split; [constructor|].
    split; [symmetry; apply app_nil_r|reflexivity].
  - cbn [poll] in Hrun.
    apply outcome_bind_inr in Hrun as ([tvs s1] & Hs & Hrun). cbv beta iota in Hrun.
    apply outcome_bind_inr in Hrun as ([m rest'] & Hrest & Hret). cbv beta iota in Hret.
    injection Hret as <- <-.
    destruct (IH _ _ _ Hrest) as (readings & Hall & Hm & Hids).
    exists (tvs :: readings). split; [constructor; eauto|].
    split.
    + rewrite Hm. cbn [map concat]. now rewrite <- app_assoc.
    + cbn [map]. rewrite Hids. f_equal.
      apply (readings_shape _ _ _ _ Hs).
Qed.

Lemma publishes_pause (config : gmap string section) :
  publishes (trace (pause config)) = [].
Proof.
  unfold pause.
  destruct (config_section config "general") as [e|general]; [reflexivity|].
  rewrite bind_lift_inr.
  destruct (section_getitem general "delay") as [e|delay]; [reflexivity|].
  rewrite bind_lift_inr.
  destruct (int_or_raise delay 10) as [e|secs]; [reflexivity|].
  rewrite bind_lift_inr. unfold sleep_int.
  destruct (sleep_rejects secs); reflexivity.
Qed.

Lemma cycle_trace (config : gmap string section) (sensors sensors' : list sensor)
    (messages : list message) :
  outcome (poll config sensors []) = inr (messages, sensors') ->
  publishes (trace (cycle config sensors))
  = publishes (trace (publish_or_print config messages)).
Proof.
  intros Hpoll. unfold cycle.
  rewrite trace_bind, publishes_app, publishes_poll, Hpoll. cbv beta iota.
  rewrite trace_bind, publishes_app. cbn [app].
  destruct (outcome (publish_or_print config messages)) as [e|[]];
    [cbn [publishes]; apply app_nil_r|].
  rewrite trace_bind, publishes_app, publishes_pause.
  destruct (outcome (pause config)) as [e|[]]; cbn; now rewrite app_nil_r.
Qed.

(** C5: in a cycle whose sensors all return, the batch is the concatenation,
    in sensor order, of the pairs the sensors returned, each pair (topic,
    value) as the message with that topic and str(value) as payload, so a
    sensor that returned none adds nothing; with an empty batch publish is
    not called, with a non-empty batch it is called exactly once, with the
    whole batch and the configured broker. *)
Theorem publish_once_per_cycle (config : gmap string section)
    (sensors sensors' : list sensor) (messages : list message) :
  outcome (poll config sensors []) = inr (messages, sensors') ->
  (exists readings,
     Forall2 (fun s tvs => exists s', outcome (topics_and_values config s) = inr (tvs, s'))
             sensors readings
     /\ messages
        = concat (map (map (fun tv => {| topic := fst tv; payload := str (snd tv) |}))
                      readings)
     /\ (messages = [] <-> Forall (fun tvs => tvs = []) readings))
  /\ (messages = [] -> publishes (trace (cycle config sensors)) = [])
  /\ (forall (mqtt : section) broker,
        messages <> [] ->
        config !! "mqtt" = Some mqtt ->
        section_lookup mqtt "broker" = Some broker ->
        publishes (trace (cycle config sensors)) = [(messages, broker)]).
Proof.
  intros Hpoll. split; [|split].
  - destruct (poll_run _ _ _ _ _ Hpoll) as (readings & Hall & Hm & _).
    exists readings. split; [exact Hall|]. split; [exact Hm|].
    rewrite Hm. cbn [app]. clear. induction readings as [|tvs readings IH].
    + split; [constructor|reflexivity].
    + cbn [map concat]. split.
      * intros Hnil. apply app_eq_nil in Hnil as [Htv Hrest].
        constructor; [|apply IH, Hrest].
        destruct tvs; [reflexivity|discriminate].
      * intros Hall. inversion Hall as [|? ? -> Hrest]; subst.
        cbn. apply IH, Hrest.
  - intros ->. rewrite (cycle_trace _ _ _ _ Hpoll). reflexivity.
  - intros mqtt broker Hne Hmqtt Hbroker. rewrite (cycle_trace _ _ _ _ Hpoll).
    destruct messages as [|m ms]; [contradiction|].
    unfold publish_or_print, config_section, section_getitem. literal_options.
    rewrite Hmqtt, bind_lift_inr, Hbroker, bind_lift_inr. reflexivity.
Qed.






Lemma startup_run (env : Env) :
  startup env
  = ([], match outcome (BME680Sensor.create_sensors env) with
         | inl e => inl e
         | inr bme =>
             match outcome (W1Sensor.create_sensors env) with
             | inl e => inl e
             | inr w1s =>
                 match map OfBME680 bme ++ map OfW1 w1s with
                 | [] => inl (Exception "No sensors found.")
                 | s :: sensors => inr (s :: sensors)
                 end
             end
         end).
Proof.
  assert (Hb : trace (BME680Sensor.create_sensors env) = [])
    by (rewrite create_sensors_run; reflexivity).
  rewrite (run_eta (startup env)). unfold startup.
  rewrite trace_bind, outcome_bind, Hb.
  destruct (outcome (BME680Sensor.create_sensors env)) as [e|bme]; [reflexivity|].
  cbv beta iota. rewrite trace_bind, outcome_bind, w1_create_sensors_trace.
  destruct (outcome (W1Sensor.create_sensors env)) as [e|w1s]; [reflexivity|].
  cbv beta iota zeta.
  destruct (map OfBME680 bme ++ map OfW1 w1s); reflexivity.
Qed.

(** C6: when both discoveries return no sensor, main raises
    Exception("No sensors found.") without a single acquisition, wait or
    publish; and whenever start-up returns, the list it hands to the polling
    loop is not empty. *)
Theorem no_sensors_is_fatal (env : Env) :
  (outcome (BME680Sensor.create_sensors env) = inr [] ->
   outcome (W1Sensor.create_sensors env) = inr [] ->
   forall n, main env n = raise (Exception "No sensors found."))
  /\ (forall sensors, outcome (startup env) = inr sensors -> sensors <> [])
  /\ (forall n,
        (exists e, outcome (startup env) = inl e /\ main env n = raise e)
        \/ (exists sensors, sensors <> []
              /\ startup env = ret sensors
              /\ main env n = polling n (config env) sensors)).
Proof.
  split; [|split].
  - intros Hb Hw n. unfold main. rewrite startup_run, Hb, Hw. reflexivity.
  - intros sensors. rewrite startup_run. unfold outcome at 1. cbn [snd].
    destruct (outcome (BME680Sensor.create_sensors env)) as [e|bme]; [discriminate|].
    destruct (outcome (W1Sensor.create_sensors env)) as [e|w1s]; [discriminate|].
    destruct (map OfBME680 bme ++ map OfW1 w1s); [discriminate|].
    intros [= <-]. discriminate.
  - intros n. unfold main. rewrite startup_run.
    destruct (outcome (BME680Sensor.create_sensors env)) as [e|bme];
      [left; exists e; split; reflexivity|].
    destruct (outcome (W1Sensor.create_sensors env)) as [e|w1s];
      [left; exists e; split; reflexivity|].
    destruct (map OfBME680 bme ++ map OfW1 w1s) as [|s sensors].
    + left. eexists. split; reflexivity.
    + right. exists (s :: sensors). split; [discriminate|]. split; [reflexivity|].
      rewrite bind_inr. cbn [app]. symmetry. apply run_eta.
Qed.







End Loop.

(** *** The loop on the simulated host *)

Example home_env_first_batch :
  fst (polled home_config (discovered home_env))
  = [ {| topic := "home/pi1/temperature"; payload := "21.5" |};
      {| topic := "home/pi1/humidity"; payload := "40.1" |};
      {| topic := "home/pi1/pressure"; payload := "1013.2" |};
      {| topic := "home/pi1/gas_resistance"; payload := "12000" |};
      {| topic := "home/pi1_28-aa/temperature"; payload := "21.0" |};
      {| topic := "home/attic/temperature"; payload := "19.0" |} ].
Proof. vm_compute. reflexivity. Qed.

(** The spec's mixed cycle: one sensor returns nothing, the other one
    reading. *)
Lemma publish_once_per_cycle_witness :
  publishes (trace (cycle home_config mixed_sensors))
  = [([ {| topic := "home/attic/temperature"; payload := "19.0" |} ], "broker.lan")].
Proof.
  refine (proj2 (proj2 (publish_once_per_cycle (H := simulated) home_config mixed_sensors
            (snd (polled home_config mixed_sensors))
            [ {| topic := "home/attic/temperature"; payload := "19.0" |} ] _))
          [("topic_format", "home/{id}/{attribute}"); ("broker", "broker.lan")]
          "broker.lan" _ _ _).
  - vm_compute. reflexivity.
  - discriminate.
  - vm_compute. reflexivity.
  - reflexivity.
Defined.

Example mixed_cycle_batch :
  fst (polled home_config mixed_sensors)
  = [ {| topic := "home/attic/temperature"; payload := "19.0" |} ].
Proof. vm_compute. reflexivity. Qed.

Lemma no_sensors_is_fatal_witness :
  main (host home_config bus0_only chip_absent None) 5
  = raise (Exception "No sensors found.").
Proof.
  apply (proj1 (no_sensors_is_fatal (host home_config bus0_only chip_absent None))).
  - vm_compute. reflexivity.
  - vm_compute. reflexivity.
Defined.



Example cellar_env_sensors :
  map label (discovered cellar_env)
  = [ (None, "cellar"); (None, "loft");
      (Some "28-aa", "pi1_28-aa"); (Some "28-BB", "attic") ].
Proof. vm_compute. reflexivity. Qed.



(** ** Further properties of the topic template *)

Section TemplateFacts.
Context `{Builtins}.

Lemma render_without_attribute (ps : list piece) (a1 a2 i : string) :
  existsb (same_field FieldAttribute) ps = false ->
  render ps a1 i = render ps a2 i.
Proof.
  induction ps as [|[c| |] ps IH]; simpl; intros Hno; try discriminate.
  - reflexivity.
  - now rewrite IH.
  - now rewrite IH.
Qed.

Lemma render_without_id (ps : list piece) (a i1 i2 : string) :
  existsb (same_field FieldId) ps = false ->
  render ps a i1 = render ps a i2.
Proof.
  induction ps as [|[c| |] ps IH]; simpl; intros Hno; try discriminate.
  - reflexivity.
  - now rewrite IH.
  - now rewrite IH.
Qed.

(** X1: a template of literal text and plain {id} and {attribute} fields
    that has no {attribute} field gives every attribute of a sensor the same
    topic, and one that has no {id} field gives every sensor the same topic
    for an attribute. *)
Theorem topic_ignores_absent_field
    (config : gmap string section) (mqtt : section) (template : string) :
  config !! "mqtt" = Some mqtt ->
  section_lookup mqtt "topic_format" = Some template ->
  (lacks_field FieldAttribute template = true ->
   forall id a1 a2,
     BaseSensor.topic_for_attribute config id a1
     = BaseSensor.topic_for_attribute config id a2)
  /\ (lacks_field FieldId template = true ->
      forall a id1 id2,
        BaseSensor.topic_for_attribute config id1 a
        = BaseSensor.topic_for_attribute config id2 a).
Proof.
  intros Hmqtt Htf.
  unfold BaseSensor.topic_for_attribute, config_section, section_getitem, format,
    lacks_field.
  literal_options. rewrite Hmqtt, Htf.
  destruct (parse Text template) as [e|ps]; [split; discriminate|].
  split; intros Hno; apply negb_true_iff in Hno; intros; f_equal.
  - apply render_without_attribute, Hno.
  - apply render_without_id, Hno.
Qed.

(** X2: for a missing section or option and for a template that the
    scanner of str.format rejects or that names an unknown keyword, what
    topic_for_attribute raises depends on the configuration alone: if it
    raises such an exception for one sensor id and attribute it raises the
    same one for all.  Templates with fields outside the embedded fragment
    are left out. *)
Theorem topic_failure_is_uniform
    (config : gmap string section) (id1 a1 : string) (e : exn) :
  BaseSensor.topic_for_attribute config id1 a1 = inl e ->
  e <> NotModelled ->
  forall id2 a2, BaseSensor.topic_for_attribute config id2 a2 = inl e.
Proof.
  unfold BaseSensor.topic_for_attribute, format.
  destruct (config_section config "mqtt") as [e'|mqtt]; [auto|].
  destruct (section_getitem mqtt "topic_format") as [e'|template]; [auto|].
  destruct (parse Text template) as [e'|ps]; [auto|discriminate].
Qed.

(** A missing mqtt section or topic_format option is a KeyError naming
    it. *)
Theorem topic_needs_configuration (config : gmap string section) (id attribute : string) :
  (config !! "mqtt" = None ->
   BaseSensor.topic_for_attribute config id attribute = inl (KeyError "mqtt"))
  /\ (forall mqtt : section,
        config !! "mqtt" = Some mqtt ->
        section_lookup mqtt "topic_format" = None ->
        BaseSensor.topic_for_attribute config id attribute = inl (KeyError "topic_format")).
Proof.
  unfold BaseSensor.topic_for_attribute, config_section, section_getitem.
  literal_options. split.
  - intros ->. reflexivity.
  - intros mqtt -> ->. reflexivity.
Qed.

(** X4: [first_label] returns the part of the name before its first dot: the
    result has no dot, and the name is the result followed, if the name has a
    dot, by a dot and the rest. *)
Theorem first_label_is_dot_free_prefix (s : string) :
  has_dot (first_label s) = false
  /\ (if has_dot s then exists rest, s = first_label s +:+ String "." rest
      else first_label s = s).
Proof.
  induction s as [|c s [IH1 IH2]]; [split; reflexivity|].
  simpl. destruct (Ascii.eqb_spec c ".") as [->|Hne]; simpl.
  - split; [reflexivity|]. exists s. reflexivity.
  - split.
    + rewrite IH1. apply orb_false_iff. split; [|reflexivity].
      now apply Ascii.eqb_neq.
    + destruct (has_dot s).
      * destruct IH2 as [rest Hrest]. exists rest.
        change (String c s = String c (first_label s +:+ String "." rest)).
        now rewrite <- Hrest.
      * now rewrite IH2.
Qed.

End TemplateFacts.

Lemma topic_ignores_absent_field_witness :
  BaseSensor.topic_for_attribute (H := simulated)
    {[ "mqtt" := [("topic_format", "home/{id}")] ]} "pi1" "temperature"
  = BaseSensor.topic_for_attribute (H := simulated)
    {[ "mqtt" := [("topic_format", "home/{id}")] ]} "pi1" "humidity".
Proof.
  refine (proj1 (topic_ignores_absent_field (H := simulated)
                   {[ "mqtt" := [("topic_format", "home/{id}")] ]}
                   [("topic_format", "home/{id}")] "home/{id}" _ _) _
                "pi1" "temperature" "humidity").
  - vm_compute. reflexivity.
  - reflexivity.
  - reflexivity.
Defined.

Lemma topic_failure_is_uniform_witness :
  BaseSensor.topic_for_attribute (H := simulated)
    {[ "mqtt" := [("topic_format", "{host}/{attribute}")] ]} "pi2" "humidity"
  = inl (KeyError "host").
Proof.
  refine (topic_failure_is_uniform (H := simulated)
            {[ "mqtt" := [("topic_format", "{host}/{attribute}")] ]} "pi1" "temperature"
            (KeyError "host") _ _ "pi2" "humidity").
  - vm_compute. reflexivity.
  - discriminate.
Defined.

Lemma topic_needs_configuration_witness :
  BaseSensor.topic_for_attribute (H := simulated) ∅ "pi1" "temperature"
  = inl (KeyError "mqtt").
Proof.
  apply (proj1 (topic_needs_configuration (H := simulated) ∅ "pi1" "temperature")).
  vm_compute. reflexivity.
Defined.

(** ** Further properties of the stabilisation protocol *)

Section ReadFacts.
Context `{Builtins}.

(** X5: every read of an environmental sensor triggers at least one and at most
    60 acquisitions, and waits after each of them or after each but the
    last. *)
Theorem read_acquisition_bounds (config : gmap string section) (self : BME680Sensor.t) :
  let run := trace (BME680Sensor.topics_and_values config self) in
  1 <= acquisitions run <= 60
  /\ waits run <= acquisitions run <= S (waits run).
Proof.
  intros run. unfold run. rewrite topics_and_values_trace.
  destruct (first_success (BME680Sensor._sensor self) 60)
    as [Hfail|(k & Hk & Hok & Hfail)].
  - rewrite (stabilise_exhausted 60 _ Hfail). unfold trace. cbn [fst].
    rewrite acquisitions_failed, waits_failed. lia.
  - rewrite (stabilise_break 60 _ k Hk Hok Hfail). unfold trace. cbn [fst].
    rewrite acquisitions_app, waits_app, acquisitions_failed, waits_failed.
    simpl. lia.
Qed.

(** X6: the topic template is evaluated only once the sensor has stabilised: a
    read whose attempt k is the first good one and whose topic cannot be
    formed (a missing section or option, a template the scanner rejects or an
    unknown keyword) raises the topic's exception after its k acquisitions
    and k-1 waits, while a read that never stabilises returns the empty list
    whatever the configuration. *)
Theorem bad_template_surfaces_after_stabilising
    (config : gmap string section) (self : BME680Sensor.t) :
  (forall k e,
     1 <= k <= 60 ->
     attempt_ok (BME680Sensor._sensor self) k = true ->
     (forall j, 1 <= j < k -> attempt_ok (BME680Sensor._sensor self) j = false) ->
     BaseSensor.topic_for_attribute config (BME680Sensor.mqtt_id self) "temperature"
     = inl e ->
     e <> NotModelled ->
     BME680Sensor.topics_and_values config self
     = (failed_attempts (k - 1) ++ [GetSensorData], inl e))
  /\ ((forall k, 1 <= k <= 60 -> attempt_ok (BME680Sensor._sensor self) k = false) ->
      exists self',
        BME680Sensor.topics_and_values config self = (failed_attempts 60, inr ([], self'))).
Proof.
  split.
  - intros k e Hk Hok Hfail Htopic _.
    unfold BME680Sensor.topics_and_values.
    rewrite (stabilise_break 60 _ k Hk Hok Hfail), bind_inr.
    cbv beta iota. cbn [BME680Sensor.mqtt_id]. rewrite Htopic, bind_lift_inl.
    cbn [fst snd]. rewrite app_nil_r. replace (pred k) with (k - 1) by lia.
    reflexivity.
  - intros Hfail. unfold BME680Sensor.topics_and_values.
    rewrite (stabilise_exhausted 60 _ Hfail), bind_inr. cbv beta iota.
    eexists. unfold ret. cbn [fst snd]. rewrite app_nil_r. reflexivity.
Qed.

End ReadFacts.

Lemma bad_template_surfaces_after_stabilising_witness :
  BME680Sensor.topics_and_values
    {[ "mqtt" := [("topic_format", "{host}/{attribute}")] ]} warming_sensor
  = (failed_attempts (60 - 1) ++ [GetSensorData], inl (KeyError "host")).
Proof.
  apply (proj1 (bad_template_surfaces_after_stabilising
                  {[ "mqtt" := [("topic_format", "{host}/{attribute}")] ]}
                  warming_sensor) 60 (KeyError "host")).
  - lia.
  - reflexivity.
  - intros j Hj.
    change (true && (59 <=? 0 + pred j)%nat = false).
    destruct (Nat.leb_spec 59 (0 + pred j)); [lia|reflexivity].
  - vm_compute. reflexivity.
  - discriminate.
Defined.


(** ** Further properties of discovery *)

Section DiscoveryFacts.
Context `{Builtins}.

(** Whatever holds of every sensor the constructor returns holds of every
    sensor [create_sensors] returns. *)
Lemma create_sensors_all (env : Env) (P : BME680Sensor.t -> Prop) :
  (forall mqtt_id i2c_addr i2c_device s,
     BME680Sensor.__init__ env mqtt_id i2c_addr i2c_device = inr s -> P s) ->
  forall sensors,
    outcome (BME680Sensor.create_sensors env) = inr sensors -> Forall P sensors.
Proof.
  intros Hinit sensors. rewrite create_sensors_run. unfold outcome at 1. cbn [snd].
  destruct (outcome (BME680Sensor.scan_buses env [0; 1]%Z None)) as [e|dev];
    [discriminate|].
  destruct (config_section (config env) "bme680sensors") as [e|items]; [discriminate|].
  destruct (create_configured_run env dev items []) as [_ [(created & Hall & Hout)|Hfail]].
  - rewrite Hout. cbn [app].
    assert (HP : Forall P created).
    { clear Hout. induction Hall as [|item s items' created' Hitem _ IH]; constructor;
        [|exact IH].
      revert Hitem. unfold construct_item.
      destruct (int_or_raise (fst item) 16) as [e|addr]; [discriminate|]. apply Hinit. }
    destruct created as [|s created]; [|intros [= <-]; exact HP].
    unfold default_sensor.
    destruct (config_section (config env) "general") as [e|general]; [discriminate|].
    destruct (BME680Sensor.__init__ env (resolved_hostname env general) None dev)
      as [e|s] eqn:Hs.
    + destruct (is_OSError e); [|discriminate]. intros [= <-]. constructor.
    + intros [= <-]. constructor; [|constructor]. apply (Hinit _ _ _ _ Hs).
  - destruct Hfail as (before & item & after & created & e & _ & _ & _ & Hout).
    rewrite Hout. discriminate.
Qed.

(** X8: every environmental sensor discovery returns has a fresh driver (no
    acquisition made yet) that received the eight configuration calls of
    the constructor, in its order: oversampling 8x for humidity, pressure and
    temperature, filter size 3, gas measurement enabled, heater at 320 for
    150 on profile 0. *)
Theorem discovered_sensors_are_configured (env : Env) (sensors : list BME680Sensor.t) :
  outcome (BME680Sensor.create_sensors env) = inr sensors ->
  Forall (fun s =>
    bme680.configured (BME680Sensor._sensor s)
    = [ bme680.set_humidity_oversample bme680.OS_8X;
        bme680.set_pressure_oversample bme680.OS_8X;
        bme680.set_temperature_oversample bme680.OS_8X;
        bme680.set_filter bme680.FILTER_SIZE_3;
        bme680.set_gas_status bme680.ENABLE_GAS_MEAS;
        bme680.set_gas_heater_temperature 320;
        bme680.set_gas_heater_duration 150;
        bme680.select_gas_heater_profile 0 ]
    /\ bme680.calls (BME680Sensor._sensor s) = 0) sensors.
Proof.
  apply create_sensors_all.
  intros mqtt_id i2c_addr i2c_device s.
  unfold BME680Sensor.__init__, bme680.new.
  destruct (BME680Sensor.truthy i2c_addr);
    destruct (chip_at env _ i2c_device) as [e|c]; try discriminate;
    intros [= <-]; split; reflexivity.
Qed.

(** X9: with a non-empty bme680sensors section, discovery returns one sensor per
    option, in order, named by the option's value and addressed by
    int(key, 16); a key that parses to 0 gives the driver's default address,
    because the constructor tests the address for truth. *)
Theorem configured_sensors_match_items (env : Env) (items : section)
    (sensors : list BME680Sensor.t) :
  config env !! "bme680sensors" = Some items ->
  items <> [] ->
  outcome (BME680Sensor.create_sensors env) = inr sensors ->
  Forall2 (fun item s =>
    BME680Sensor.mqtt_id s = snd item
    /\ exists addr, int (fst item) 16 = Some addr
         /\ bme680.i2c_addr (BME680Sensor._sensor s)
            = (if (addr =? 0)%Z then None else Some addr)) items sensors.
Proof.
  intros Hitems Hne. rewrite create_sensors_run. unfold outcome at 1. cbn [snd].
  destruct (outcome (BME680Sensor.scan_buses env [0; 1]%Z None)) as [e|dev];
    [discriminate|].
  unfold config_section. rewrite Hitems.
  destruct (create_configured_run env dev items []) as [_ [(created & Hall & Hout)|Hfail]].
  - rewrite Hout. cbn [app].
    destruct created as [|s created].
    + inversion Hall; subst. contradiction.
    + intros [= <-]. clear Hout Hne Hitems.
      induction Hall as [|item s' items' created' Hitem _ IH]; constructor; [|exact IH].
      destruct (construct_item_fields _ _ _ _ Hitem) as (Hid & _ & Haddr). auto.
  - destruct Hfail as (before & item & after & created & e & _ & _ & _ & Hout).
    rewrite Hout. discriminate.
Qed.

(** X10: a section that discovery subscripts and the configuration lacks is a
    KeyError naming it: bme680sensors after the bus scan, general on the
    default path and for any probe list, w1sensors as soon as there is a
    probe. *)
Theorem discovery_needs_sections (env : Env) :
  (forall dev,
     outcome (BME680Sensor.scan_buses env [0; 1]%Z None) = inr dev ->
     config env !! "bme680sensors" = None ->
     BME680Sensor.create_sensors env = raise (KeyError "bme680sensors"))
  /\ (forall dev,
        outcome (BME680Sensor.scan_buses env [0; 1]%Z None) = inr dev ->
        config env !! "bme680sensors" = Some ([] : section) ->
        config env !! "general" = None ->
        BME680Sensor.create_sensors env = raise (KeyError "general"))
  /\ (forall probes,
        w1 env = Some probes ->
        config env !! "general" = None ->
        W1Sensor.create_sensors env = raise (KeyError "general"))
  /\ (forall probes (general : section),
        w1 env = Some probes -> probes <> [] ->
        config env !! "general" = Some general ->
        config env !! "w1sensors" = None ->
        W1Sensor.create_sensors env = raise (KeyError "w1sensors")).
Proof.
  repeat split.
  - intros dev Hscan Hnone. rewrite create_sensors_run, Hscan.
    unfold config_section. rewrite Hnone. reflexivity.
  - intros dev Hscan Hitems Hnone. rewrite create_sensors_run, Hscan.
    unfold config_section, default_sensor. rewrite Hitems.
    cbn [BME680Sensor.create_configured outcome ret snd].
    unfold config_section. rewrite Hnone. reflexivity.
  - intros probes Hw1 Hnone. unfold W1Sensor.create_sensors, config_section.
    rewrite Hw1, Hnone. reflexivity.
  - intros probes general Hw1 Hne Hgeneral Hnone.
    unfold W1Sensor.create_sensors, config_section. rewrite Hw1, Hgeneral, bind_lift_inr.
    destruct probes as [|p rest]; [contradiction|].
    destruct (length (p :: rest) =? 1)%nat; cbn [W1Sensor.create_each];
      unfold config_section; rewrite Hnone; reflexivity.
Qed.

(** Without w1thermsensor discovery returns no probe sensor and reads no
    configuration; with w1thermsensor and an empty bus it returns none either
    and needs only the general section. *)
Theorem no_probes_no_sensors (env : Env) :
  (w1 env = None -> W1Sensor.create_sensors env = ret [])
  /\ (forall general : section,
        w1 env = Some [] -> config env !! "general" = Some general ->
        W1Sensor.create_sensors env = ret []).
Proof.
  unfold W1Sensor.create_sensors, config_section. split.
  - intros ->. reflexivity.
  - intros general -> ->. reflexivity.
Qed.

(** X11: among several probes, two probes without an entry in w1sensors
    (under their ids as optionxform spells them) and with different hardware
    ids get different mqtt_ids. *)
Theorem generated_ids_are_distinct (env : Env) (probes : list W1ThermSensor)
    (general w1sensors : section) (sensors : list W1Sensor.t) (s1 s2 : W1Sensor.t) :
  w1 env = Some probes ->
  length probes <> 1 ->
  config env !! "general" = Some general ->
  config env !! "w1sensors" = Some w1sensors ->
  outcome (W1Sensor.create_sensors env) = inr sensors ->
  In s1 sensors -> In s2 sensors ->
  section_lookup w1sensors (lower (id (W1Sensor._sensor s1))) = None ->
  section_lookup w1sensors (lower (id (W1Sensor._sensor s2))) = None ->
  id (W1Sensor._sensor s1) <> id (W1Sensor._sensor s2) ->
  W1Sensor.mqtt_id s1 <> W1Sensor.mqtt_id s2.
Proof.
  intros Hw1 Hlen Hgeneral Hw.
  unfold W1Sensor.create_sensors, config_section. rewrite Hw1, Hgeneral, bind_lift_inr.
  apply Nat.eqb_neq in Hlen. rewrite Hlen.
  rewrite (create_each_run _ _ w1sensors probes Hw).
  intros [= <-] Hin1 Hin2.
  apply in_map_iff in Hin1 as (p1 & <- & _).
  apply in_map_iff in Hin2 as (p2 & <- & _).
  cbn. unfold section_get. intros -> -> Hne Heq. apply Hne.
  apply append_cancel_l in Heq. now injection Heq.
Qed.

End DiscoveryFacts.

Example address_zero_is_default :
  match outcome (BME680Sensor.create_sensors
                   (host (<["bme680sensors" := [("0", "cellar"); ("77", "loft")]]> home_config)
                         bus0_only chip_present None)) with
  | inr sensors =>
      map (fun s => (BME680Sensor.mqtt_id s, bme680.i2c_addr (BME680Sensor._sensor s))) sensors
  | inl _ => []
  end = [("cellar", None); ("loft", Some 119%Z)].
Proof. vm_compute. reflexivity. Qed.

Lemma discovered_sensors_are_configured_witness :
  Forall (fun s =>
    bme680.configured (BME680Sensor._sensor s)
    = [ bme680.set_humidity_oversample bme680.OS_8X;
        bme680.set_pressure_oversample bme680.OS_8X;
        bme680.set_temperature_oversample bme680.OS_8X;
        bme680.set_filter bme680.FILTER_SIZE_3;
        bme680.set_gas_status bme680.ENABLE_GAS_MEAS;
        bme680.set_gas_heater_temperature 320;
        bme680.set_gas_heater_duration 150;
        bme680.select_gas_heater_profile 0 ]
    /\ bme680.calls (BME680Sensor._sensor s) = 0)
    (match outcome (BME680Sensor.create_sensors home_env) with
     | inr sensors => sensors
     | inl _ => []
     end).
Proof.
  apply (discovered_sensors_are_configured home_env).
  vm_compute. reflexivity.
Defined.

Lemma configured_sensors_match_items_witness :
  Forall2 (fun item s =>
    BME680Sensor.mqtt_id s = snd item
    /\ exists addr, plain_int (fst item) 16 = Some addr
         /\ bme680.i2c_addr (BME680Sensor._sensor s)
            = (if (addr =? 0)%Z then None else Some addr))
    [("0", "cellar"); ("77", "loft")]
    (match outcome (BME680Sensor.create_sensors
                      (host (<["bme680sensors" := [("0", "cellar"); ("77", "loft")]]> home_config)
                            bus0_only chip_present None)) with
     | inr sensors => sensors
     | inl _ => []
     end).
Proof.
  apply (configured_sensors_match_items
           (host (<["bme680sensors" := [("0", "cellar"); ("77", "loft")]]> home_config)
                 bus0_only chip_present None)).
  - vm_compute. reflexivity.
  - discriminate.
  - vm_compute. reflexivity.
Defined.

Lemma discovery_needs_sections_witness :
  BME680Sensor.create_sensors (host ∅ bus0_only chip_present None)
  = raise (KeyError "bme680sensors").
Proof.
  apply (proj1 (discovery_needs_sections (host ∅ bus0_only chip_present None)) (Some 3)).
  - reflexivity.
  - vm_compute. reflexivity.
Defined.

Lemma no_probes_no_sensors_witness :
  W1Sensor.create_sensors (host ∅ bus0_only chip_present None) = ret [].
Proof.
  apply (proj1 (no_probes_no_sensors (host ∅ bus0_only chip_present None))).
  reflexivity.
Defined.

Lemma generated_ids_are_distinct_witness :
  W1Sensor.mqtt_id (@W1Sensor.__init__ simulated "pi1_28-aa" (probe "28-aa" "21.0"))
  <> W1Sensor.mqtt_id (@W1Sensor.__init__ simulated "pi1_28-cc" (probe "28-cc" "18.0")).
Proof.
  apply (generated_ids_are_distinct
           (host home_config bus0_only chip_absent
                 (Some [probe "28-aa" "21.0"; probe "28-cc" "18.0"]))
           [probe "28-aa" "21.0"; probe "28-cc" "18.0"]
           [("delay", "30")] [("28-bb", "attic")]
           [@W1Sensor.__init__ simulated "pi1_28-aa" (probe "28-aa" "21.0");
            @W1Sensor.__init__ simulated "pi1_28-cc" (probe "28-cc" "18.0")]).
  - reflexivity.
  - simpl. lia.
  - vm_compute. reflexivity.
  - vm_compute. reflexivity.
  - vm_compute. reflexivity.
  - simpl. auto.
  - simpl. auto.
  - reflexivity.
  - reflexivity.
  - discriminate.
Defined.


(** ** Further properties of the loop *)

Section LoopFacts.
Context `{Builtins}.


Lemma bind_fail {A B} (m : M A) (k : A -> M B) (e : exn) :
  outcome m = inl e -> bind m k = (trace m, inl e).
Proof.
  destruct m as [t [e'|a]]; unfold outcome, trace; cbn [fst snd]; [|discriminate].
  intros [= ->]. reflexivity.
Qed.

Lemma reports_app (t1 t2 : list event) : reports (t1 ++ t2) = reports t1 + reports t2.
Proof. induction t1 as [|[] t1 IH]; simpl; auto. Qed.

Lemma reports_stabilise (n : nat) : forall s : bme680.BME680,
  reports (trace (BME680Sensor.stabilise n s)) = 0.
Proof.
  induction n as [|n IH]; intros s; [reflexivity|].
  rewrite stabilise_step. destruct (attempt_ok s 1); [reflexivity|].
  unfold trace. cbn [fst reports]. apply IH.
Qed.

Lemma reports_topics_and_values (config : gmap string section) (s : sensor) :
  reports (trace (topics_and_values config s)) = 0.
Proof.
  destruct s as [b|w]; unfold topics_and_values; rewrite trace_bind, reports_app.
  - rewrite topics_and_values_trace, reports_stabilise.
    destruct (outcome (BME680Sensor.topics_and_values config b)); reflexivity.
  - unfold W1Sensor.topics_and_values.
    destruct (BaseSensor.topic_for_attribute config _ "temperature") as [e|t];
      [reflexivity|].
    rewrite bind_lift_inr.
    destruct (get_temperature (W1Sensor._sensor w)) as [e|[temp p]]; reflexivity.
Qed.

Lemma reports_poll (config : gmap string section) (sensors : list sensor) :
  forall acc, reports (trace (poll config sensors acc)) = 0.
Proof.
  induction sensors as [|s rest IH]; intros acc; [reflexivity|].
  cbn [poll]. rewrite trace_bind, reports_app, reports_topics_and_values.
  destruct (outcome (topics_and_values config s)) as [e|[tvs s']]; [reflexivity|].
  cbv beta iota. rewrite trace_bind, reports_app, IH.
  destruct (outcome (poll config rest _)) as [e|[m r]]; reflexivity.
Qed.





(** X16: when a read raises (the driver's exception, or the one of a topic
    that cannot be formed), the cycle ends with that exception where the read
    stopped: nothing is published or printed, what earlier sensors of the
    cycle returned is dropped, and no delay is slept. *)
Theorem failed_read_publishes_nothing (config : gmap string section)
    (sensors : list sensor) (e : exn) :
  outcome (poll config sensors []) = inl e ->
  e <> NotModelled ->
  cycle config sensors = (trace (poll config sensors []), inl e)
  /\ publishes (trace (cycle config sensors)) = []
  /\ reports (trace (cycle config sensors)) = 0.
Proof.
  intros Hpoll _. unfold cycle at 1.
  assert (Hrun : cycle config sensors = (trace (poll config sensors []), inl e))
    by (unfold cycle; apply (bind_fail _ _ _ Hpoll)).
  fold (cycle config sensors). rewrite Hrun. unfold trace at 2 4. cbn [fst].
  split; [reflexivity|]. split; [apply publishes_poll|apply reports_poll].
Qed.

Lemma reports_cycle (config : gmap string section) (sensors sensors' : list sensor) :
  outcome (cycle config sensors) = inr sensors' ->
  reports (trace (cycle config sensors)) = 1.
Proof.
  unfold cycle. intros Hrun.
  rewrite trace_bind, reports_app, reports_poll.
  apply outcome_bind_inr in Hrun as ([messages s1] & Hpoll & Hrun).
  rewrite Hpoll. cbv beta iota in Hrun |- *.
  rewrite trace_bind, reports_app.
  apply outcome_bind_inr in Hrun as ([] & Hpub & Hrun). rewrite Hpub.
  rewrite trace_bind, reports_app.
  apply outcome_bind_inr in Hrun as ([] & Hpause & Hrun). rewrite Hpause.
  assert (Hp : reports (trace (publish_or_print config messages)) = 1).
  { revert Hpub. unfold publish_or_print. destruct messages as [|m ms]; [reflexivity|].
    destruct (config_section config "mqtt") as [e|mqtt]; [discriminate|].
    rewrite bind_lift_inr.
    destruct (section_getitem mqtt "broker") as [e|broker]; [discriminate|].
    rewrite bind_lift_inr. reflexivity. }
  assert (Hs : reports (trace (pause config)) = 0).
  { clear. unfold pause.
    destruct (config_section config "general") as [e|general]; [reflexivity|].
    rewrite bind_lift_inr.
    destruct (section_getitem general "delay") as [e|delay]; [reflexivity|].
    rewrite bind_lift_inr.
    destruct (int_or_raise delay 10) as [e|secs]; [reflexivity|].
    rewrite bind_lift_inr. unfold sleep_int. destruct (sleep_rejects secs); reflexivity. }
  rewrite Hp, Hs. reflexivity.
Qed.

(** X17: each completed pass of the loop makes exactly one publish or print
    call: after n passes the trace has n of them. *)
Theorem one_report_per_cycle (n : nat) (config : gmap string section) :
  forall sensors sensors',
    outcome (polling n config sensors) = inr sensors' ->
    reports (trace (polling n config sensors)) = n.
Proof.
  induction n as [|n IH]; intros sensors sensors' Hrun; [reflexivity|].
  cbn [polling] in Hrun |- *.
  rewrite trace_bind, reports_app.
  apply outcome_bind_inr in Hrun as (s1 & Hcycle & Hrun).
  rewrite Hcycle, (reports_cycle _ _ _ Hcycle), (IH _ _ Hrun). reflexivity.
Qed.

(** X18: an exception in either discovery ends main with that exception before
    the loop, whatever the other discovery would find; the environmental
    discovery runs first. *)
Theorem discovery_failure_is_fatal (env : Env) (e : exn) :
  (outcome (BME680Sensor.create_sensors env) = inl e ->
   forall n, main env n = raise e)
  /\ (forall bme,
        outcome (BME680Sensor.create_sensors env) = inr bme ->
        outcome (W1Sensor.create_sensors env) = inl e ->
        forall n, main env n = raise e).
Proof.
  split.
  - intros Hb n. unfold main. rewrite startup_run, Hb. reflexivity.
  - intros bme Hb Hw n. unfold main. rewrite startup_run, Hb, Hw. reflexivity.
Qed.

Lemma probe_read_run (config : gmap string section) (w : W1Sensor.t) (t : string)
    (temp : value) :
  BaseSensor.topic_for_attribute config (W1Sensor.mqtt_id w) "temperature" = inr t ->
  thermometer (W1Sensor._sensor w) (reads (W1Sensor._sensor w)) = inr temp ->
  topics_and_values config (OfW1 w) = ([], inr ([(t, temp)], OfW1 (read_once w))).
Proof.
  intros Ht Htemp. unfold topics_and_values, W1Sensor.topics_and_values, get_temperature.
  rewrite Ht, bind_lift_inr, Htemp, bind_lift_inr. reflexivity.
Qed.

Lemma probe_read_raises (config : gmap string section) (w : W1Sensor.t) (t : string)
    (e : exn) :
  BaseSensor.topic_for_attribute config (W1Sensor.mqtt_id w) "temperature" = inr t ->
  thermometer (W1Sensor._sensor w) (reads (W1Sensor._sensor w)) = inl e ->
  topics_and_values config (OfW1 w) = ([], inl e).
Proof.
  intros Ht Htemp. unfold topics_and_values, W1Sensor.topics_and_values, get_temperature.
  rewrite Ht, bind_lift_inr, Htemp. reflexivity.
Qed.

Lemma poll_probes (config : gmap string section) (ws : list W1Sensor.t) :
  forall (topics : list string) (temps : list value) (acc : list message),
    Forall2 (fun w t =>
      BaseSensor.topic_for_attribute config (W1Sensor.mqtt_id w) "temperature" = inr t)
      ws topics ->
    Forall2 (fun w temp =>
      thermometer (W1Sensor._sensor w) (reads (W1Sensor._sensor w)) = inr temp)
      ws temps ->
    poll config (map OfW1 ws) acc
    = ([], inr (acc ++ map (fun tv => {| topic := fst tv; payload := str (snd tv) |})
                           (combine topics temps),
                map OfW1 (map read_once ws))).
Proof.
  induction ws as [|w ws IH]; intros topics temps acc Htopics Htemps.
  - inversion Htopics; subst. cbn. now rewrite app_nil_r.
  - inversion Htopics as [|? t ? topics' Ht Hrest]; subst.
    inversion Htemps as [|? temp ? temps' Htemp Hrest']; subst.
    cbn [poll map]. rewrite (probe_read_run _ _ _ _ Ht Htemp), bind_inr.
    cbv beta iota. rewrite (IH topics' temps' _ Hrest Hrest'), bind_inr. cbv beta iota.
    unfold ret, to_message. cbn [fst snd app combine map].
    rewrite <- app_assoc. reflexivity.
Qed.

Lemma poll_probes_raises (config : gmap string section) (w : W1Sensor.t)
    (after : list W1Sensor.t) (t : string) (e : exn) :
  BaseSensor.topic_for_attribute config (W1Sensor.mqtt_id w) "temperature" = inr t ->
  thermometer (W1Sensor._sensor w) (reads (W1Sensor._sensor w)) = inl e ->
  forall (before : list W1Sensor.t) (topics : list string) (temps : list value)
         (acc : list message),
    Forall2 (fun w t =>
      BaseSensor.topic_for_attribute config (W1Sensor.mqtt_id w) "temperature" = inr t)
      before topics ->
    Forall2 (fun w temp =>
      thermometer (W1Sensor._sensor w) (reads (W1Sensor._sensor w)) = inr temp)
      before temps ->
    poll config (map OfW1 (before ++ w :: after)) acc = ([], inl e).
Proof.
  intros Ht He. induction before as [|b before IH]; intros topics temps acc Htopics Htemps.
  - cbn [app poll map]. rewrite (probe_read_raises _ _ _ _ Ht He). reflexivity.
  - inversion Htopics as [|? tb ? topics' Htb Hrest]; subst.
    inversion Htemps as [|? temp ? temps' Htemp Hrest']; subst.
    cbn [app poll map]. rewrite (probe_read_run _ _ _ _ Htb Htemp), bind_inr.
    cbv beta iota. rewrite (IH topics' temps' _ Hrest Hrest'). reflexivity.
Qed.

(** X12: polling probes takes no time.  When the temperature topics form: a
    poll of probe sensors whose reads all return emits no event (no
    acquisition, no wait), returns one temperature message per probe in list
    order with the str of the value just read as payload, and advances each
    probe by one read; when the probes before one return and this one's read
    raises, the poll raises that exception, again without an event. *)
Theorem probes_poll_without_waiting (config : gmap string section)
    (ws : list W1Sensor.t) (topics : list string) :
  Forall2 (fun w t =>
    BaseSensor.topic_for_attribute config (W1Sensor.mqtt_id w) "temperature" = inr t)
    ws topics ->
  (forall temps : list value,
     Forall2 (fun w temp =>
       thermometer (W1Sensor._sensor w) (reads (W1Sensor._sensor w)) = inr temp)
       ws temps ->
     exists ws',
       poll config (map OfW1 ws) []
       = ([], inr (map (fun tv => {| topic := fst tv; payload := str (snd tv) |})
                       (combine topics temps),
                   map OfW1 ws'))
       /\ Forall2 (fun w w' =>
            W1Sensor.mqtt_id w' = W1Sensor.mqtt_id w
            /\ id (W1Sensor._sensor w') = id (W1Sensor._sensor w)
            /\ reads (W1Sensor._sensor w') = S (reads (W1Sensor._sensor w))) ws ws')
  /\ (forall before w after (temps : list value) e,
        ws = before ++ w :: after ->
        Forall2 (fun w temp =>
          thermometer (W1Sensor._sensor w) (reads (W1Sensor._sensor w)) = inr temp)
          before temps ->
        thermometer (W1Sensor._sensor w) (reads (W1Sensor._sensor w)) = inl e ->
        poll config (map OfW1 ws) [] = ([], inl e)).
Proof.
  intros Htopics. split.
  - intros temps Htemps. exists (map read_once ws).
    rewrite (poll_probes _ _ _ _ [] Htopics Htemps). split; [reflexivity|].
    clear. induction ws as [|w ws IH]; constructor; auto.
  - intros before w after temps e -> Htemps He.
    apply Forall2_app_inv_l in Htopics as (tb & trest & Hb & Hrest & _).
    inversion Hrest as [|? t ? ? Ht _]; subst.
    apply (poll_probes_raises _ _ _ _ _ Ht He _ _ _ _ Hb Htemps).
Qed.

End LoopFacts.



Lemma failed_read_publishes_nothing_witness :
  cycle (∅ : gmap string section)
        [@OfW1 simulated (@W1Sensor.__init__ simulated "attic" (probe "28-bb" "19.0"))]
  = (trace (poll (∅ : gmap string section)
                 [@OfW1 simulated (@W1Sensor.__init__ simulated "attic"
                                     (probe "28-bb" "19.0"))] []),
     inl (KeyError "mqtt")).
Proof.
  refine (proj1 (failed_read_publishes_nothing (∅ : gmap string section)
            [@OfW1 simulated (@W1Sensor.__init__ simulated "attic" (probe "28-bb" "19.0"))]
            (KeyError "mqtt") _ _)).
  - vm_compute. reflexivity.
  - discriminate.
Defined.

Lemma one_report_per_cycle_witness :
  reports (trace (polling 2 home_config mixed_sensors)) = 2.
Proof.
  apply (one_report_per_cycle 2 home_config mixed_sensors
           (match outcome (polling 2 home_config mixed_sensors) with
            | inr sensors => sensors
            | inl _ => []
            end)).
  vm_compute. reflexivity.
Defined.

Lemma discovery_failure_is_fatal_witness :
  main (host ∅ bus0_only chip_present (Some [probe "28-aa" "21.0"])) 3
  = raise (KeyError "bme680sensors").
Proof.
  apply (proj1 (discovery_failure_is_fatal
                  (host ∅ bus0_only chip_present (Some [probe "28-aa" "21.0"]))
                  (KeyError "bme680sensors"))).
  vm_compute. reflexivity.
Defined.

(** Two probes on the home configuration: one batch of two messages, no
    event. *)
Lemma probes_poll_without_waiting_witness :
  exists ws',
    poll home_config
      (map OfW1 [@W1Sensor.__init__ simulated "pi1_28-aa" (probe "28-aa" "21.0");
                 @W1Sensor.__init__ simulated "attic" (probe "28-bb" "19.0")]) []
    = ([], inr ([ {| topic := "home/pi1_28-aa/temperature"; payload := "21.0" |};
                  {| topic := "home/attic/temperature"; payload := "19.0" |} ],
                map OfW1 ws'))
    /\ Forall2 (fun w w' =>
         W1Sensor.mqtt_id w' = W1Sensor.mqtt_id w
         /\ id (W1Sensor._sensor w') = id (W1Sensor._sensor w)
         /\ reads (W1Sensor._sensor w') = S (reads (W1Sensor._sensor w)))
         [@W1Sensor.__init__ simulated "pi1_28-aa" (probe "28-aa" "21.0");
          @W1Sensor.__init__ simulated "attic" (probe "28-bb" "19.0")] ws'.
Proof.
  refine (proj1 (probes_poll_without_waiting (H := simulated) home_config
           [@W1Sensor.__init__ simulated "pi1_28-aa" (probe "28-aa" "21.0");
            @W1Sensor.__init__ simulated "attic" (probe "28-bb" "19.0")]
           ["home/pi1_28-aa/temperature"; "home/attic/temperature"] _)
           ["21.0"; "19.0"] _).
  - constructor; [|constructor; [|constructor]]; vm_compute; reflexivity.
  - constructor; [|constructor; [|constructor]]; reflexivity.
Defined.

(** A probe whose read raises ends the poll with its exception; the reading
    of the probe before it is dropped. *)
Example failing_probe_ends_the_poll :
  poll home_config
    (map OfW1 [@W1Sensor.__init__ simulated "attic" (probe "28-bb" "19.0");
               @W1Sensor.__init__ simulated "shed"
                 (@Build_W1ThermSensor simulated "28-cc" (fun _ => inl RuntimeError) 0%nat)])
    []
  = ([], inl RuntimeError).
Proof. vm_compute. reflexivity. Qed.


(** ** Further properties: literal templates, driver identity, poll time *)

Section MoreFacts.
Context `{Builtins}.

Lemma parse_plain_text (t : string) :
  has_brace t = false ->
  exists ps, parse Text t = inr ps /\ forall a i, render ps a i = t.
Proof.
  induction t as [|c t IH]; simpl; intros Hno.
  - exists []. split; reflexivity.
  - apply orb_false_iff in Hno as [Hc Ht].
    apply orb_false_iff in Hc as [Hopen Hclose].
    rewrite Hopen, Hclose.
    destruct (IH Ht) as (ps & Hps & Hrender). rewrite Hps.
    exists (Lit c :: ps). split; [reflexivity|].
    intros a i. simpl. now rewrite Hrender.
Qed.

(** X3: a template without braces is the topic, for every sensor and
    attribute. *)
Theorem literal_template_is_the_topic (template : string) :
  has_brace template = false ->
  forall attribute id, format template attribute id = inr template.
Proof.
  intros Hno attribute id. unfold format.
  destruct (parse_plain_text template Hno) as (ps & -> & Hrender).
  now rewrite Hrender.
Qed.

Lemma advance_identity (k : nat) : forall s : bme680.BME680,
  bme680.i2c_addr (advance k s) = bme680.i2c_addr s
  /\ bme680.i2c_device (advance k s) = bme680.i2c_device s
  /\ bme680.chip (advance k s) = bme680.chip s
  /\ bme680.configured (advance k s) = bme680.configured s.
Proof.
  induction k as [|k IH]; intros s; [repeat split|].
  cbn [advance]. destruct (IH (acquire s)) as (H1 & H2 & H3 & H4).
  rewrite H1, H2, H3, H4. repeat split.
Qed.

(** X7: a read changes nothing of a sensor but the driver's data object and its
    count of acquisitions, which grows by the acquisitions of the read: the
    mqtt_id, the address, the bus handle, the chip and the configuration
    stay. *)
Theorem read_keeps_driver_identity (config : gmap string section)
    (self self' : BME680Sensor.t) (tvs : list (string * value)) :
  outcome (BME680Sensor.topics_and_values config self) = inr (tvs, self') ->
  BME680Sensor.mqtt_id self' = BME680Sensor.mqtt_id self
  /\ bme680.i2c_addr (BME680Sensor._sensor self')
     = bme680.i2c_addr (BME680Sensor._sensor self)
  /\ bme680.i2c_device (BME680Sensor._sensor self')
     = bme680.i2c_device (BME680Sensor._sensor self)
  /\ bme680.chip (BME680Sensor._sensor self') = bme680.chip (BME680Sensor._sensor self)
  /\ bme680.configured (BME680Sensor._sensor self')
     = bme680.configured (BME680Sensor._sensor self)
  /\ bme680.calls (BME680Sensor._sensor self')
     = bme680.calls (BME680Sensor._sensor self)
       + acquisitions (trace (BME680Sensor.topics_and_values config self)).
Proof.
  rewrite topics_and_values_trace.
  unfold BME680Sensor.topics_and_values. rewrite outcome_bind.
  destruct (first_success (BME680Sensor._sensor self) 60) as [Hfail|(k & Hk & Hok & Hfail)].
  - rewrite (stabilise_exhausted 60 _ Hfail). unfold outcome at 1, trace. cbn [fst snd].
    rewrite acquisitions_failed.
    generalize (advance_identity 60 (BME680Sensor._sensor self))
               (advance_calls 60 (BME680Sensor._sensor self)).
    generalize (advance 60 (BME680Sensor._sensor self)). intros sk Hid Hcalls.
    cbv beta iota. unfold outcome, ret. cbn [snd]. intros [= _ <-].
    cbn [BME680Sensor.mqtt_id BME680Sensor._sensor].
    destruct Hid as (H1 & H2 & H3 & H4). auto 10.
  - rewrite (stabilise_break 60 _ k Hk Hok Hfail). unfold outcome at 1, trace. cbn [fst snd].
    rewrite acquisitions_app, acquisitions_failed.
    generalize (advance_identity k (BME680Sensor._sensor self))
               (advance_calls k (BME680Sensor._sensor self)).
    generalize (advance k (BME680Sensor._sensor self)). intros sk Hid Hcalls.
    cbv beta iota. cbn [BME680Sensor.mqtt_id].
    destruct (BaseSensor.topic_for_attribute config _ "temperature") as [e1|t1];
      [discriminate|]; rewrite bind_lift_inr.
    destruct (BaseSensor.topic_for_attribute config _ "humidity") as [e2|t2];
      [discriminate|]; rewrite bind_lift_inr.
    destruct (BaseSensor.topic_for_attribute config _ "pressure") as [e3|t3];
      [discriminate|]; rewrite bind_lift_inr.
    destruct (BaseSensor.topic_for_attribute config _ "gas_resistance") as [e4|t4];
      [discriminate|]; rewrite bind_lift_inr.
    unfold outcome, ret. cbn [snd]. intros [= _ <-].
    cbn [BME680Sensor.mqtt_id BME680Sensor._sensor].
    destruct Hid as (H1 & H2 & H3 & H4).
    repeat split; auto. rewrite Hcalls. simpl. lia.
Qed.

Lemma stabilise_events (n : nat) : forall s : bme680.BME680,
  forallb stabilisation_event (trace (BME680Sensor.stabilise n s)) = true
  /\ waits (trace (BME680Sensor.stabilise n s)) <= n.
Proof.
  induction n as [|n IH]; intros s; [split; [reflexivity|simpl; lia]|].
  rewrite stabilise_step. destruct (attempt_ok s 1).
  - split; [reflexivity|simpl; lia].
  - destruct (IH (acquire s)) as [Hev Hw]. unfold trace in *. cbn [fst].
    split.
    + cbn [forallb stabilisation_event]. rewrite Hev. reflexivity.
    + cbn [waits]. lia.
Qed.

Lemma forallb_app_true {A} (f : A -> bool) (l1 l2 : list A) :
  forallb f l1 = true -> forallb f l2 = true -> forallb f (l1 ++ l2) = true.
Proof. intros H1 H2. rewrite forallb_app, H1, H2. reflexivity. Qed.

Lemma read_events (config : gmap string section) (s : sensor) :
  forallb stabilisation_event (trace (topics_and_values config s)) = true
  /\ waits (trace (topics_and_values config s)) <= 60 * environmental [s].
Proof.
  destruct s as [b|w]; unfold topics_and_values; rewrite trace_bind.
  - rewrite topics_and_values_trace.
    destruct (stabilise_events 60 (BME680Sensor._sensor b)) as [Hev Hw].
    destruct (outcome (BME680Sensor.topics_and_values config b)) as [e|r];
      cbn [trace ret fst]; rewrite app_nil_r; split; auto; simpl; lia.
  - unfold W1Sensor.topics_and_values.
    destruct (BaseSensor.topic_for_attribute config _ "temperature") as [e|t].
    + split; [reflexivity|simpl; lia].
    + rewrite bind_lift_inr.
      destruct (get_temperature (W1Sensor._sensor w)) as [e|[temp p]];
        split; try reflexivity; simpl; lia.
Qed.

(** X13: the reads of a cycle emit only acquisitions and half-unit waits, at most
    60 waits for each environmental sensor in the list and none for a
    probe: the cycle's stabilisation time is bounded by 30 time-units per
    environmental sensor. *)
Theorem poll_waits_bound (config : gmap string section) (sensors : list sensor) :
  forall acc,
    forallb stabilisation_event (trace (poll config sensors acc)) = true
    /\ waits (trace (poll config sensors acc)) <= 60 * environmental sensors.
Proof.
  induction sensors as [|s rest IH]; intros acc; [split; [reflexivity|simpl; lia]|].
  cbn [poll]. rewrite trace_bind.
  destruct (read_events config s) as [Hev Hw].
  assert (Hcount : environmental (s :: rest) = environmental [s] + environmental rest)
    by (destruct s; reflexivity).
  destruct (outcome (topics_and_values config s)) as [e|[tvs s']].
  - rewrite app_nil_r. split; [exact Hev|]. lia.
  - cbv beta iota. rewrite trace_bind.
    destruct (IH (acc ++ map to_message tvs)) as [Hev' Hw'].
    destruct (outcome (poll config rest _)) as [e|[m r]];
      cbn [trace ret fst]; rewrite ?app_nil_r; split;
      try (apply forallb_app_true; assumption);
      rewrite waits_app; lia.
Qed.

End MoreFacts.

Lemma literal_template_is_the_topic_witness :
  format "home/sensors" "temperature" "pi1" = inr "home/sensors".
Proof.
  refine (literal_template_is_the_topic "home/sensors" _ "temperature" "pi1").
  reflexivity.
Defined.

Lemma read_keeps_driver_identity_witness :
  bme680.calls
    (BME680Sensor._sensor
       (snd (match outcome (BME680Sensor.topics_and_values home_config warming_sensor) with
             | inr r => r
             | inl _ => ([], warming_sensor)
             end)))
  = bme680.calls (BME680Sensor._sensor warming_sensor)
    + acquisitions (trace (BME680Sensor.topics_and_values home_config warming_sensor)).
Proof.
  refine (proj2 (proj2 (proj2 (proj2 (proj2
            (read_keeps_driver_identity home_config warming_sensor
               (snd (match outcome (BME680Sensor.topics_and_values home_config
                                      warming_sensor) with
                     | inr r => r
                     | inl _ => ([], warming_sensor)
                     end))
               (fst (match outcome (BME680Sensor.topics_and_values home_config
                                      warming_sensor) with
                     | inr r => r
                     | inl _ => ([], warming_sensor)
                     end)) _)))))).
  vm_compute. reflexivity.
Defined.
